(** * Freelance earnings analyzer: a shallow embedding and its properties

    The development follows the Python sources module by module:

    - [Py]             the fragments of Python the sources rely on: exceptions
                       and [try]/[except], list slicing, [int / int], the
                       built-in [round] on floats, [str.strip];
    - [SessionMemory]  [app/memory/session_memory.py];
    - [CsvLoader]      [document_loaders/csv_loader.py] and [utils/errors.py];
    - [DataAnalyzer]   [app/models/data_analyzer.py];
    - [Json]           [NpEncoder] and [json.dumps] of [app/chains/analysis_chain.py];
    - [AnalysisChain]  [FreelancerAnalysisChain] of the same file.

    Floating-point numbers are IEEE binary64 values (Rocq's primitive floats),
    Python integers are [Z], strings are byte strings (UTF-8). *)

From Stdlib Require Import ZArith List String Ascii Bool Lia Sorted.
From Stdlib Require Import PrimFloat FloatOps SpecFloat.
Import ListNotations.

Set Warnings "-register-all,-inexact-float".

Local Open Scope string_scope.
Local Open Scope Z_scope.

(* ================================================================= *)
(** ** Python fragments *)

Module Py.

(** Exception classes that occur in the sources and in the libraries they
    call.  All of them derive from [Exception]; interpreter-level signals
    that derive from [BaseException] only are not part of the model. *)
Inductive exn_class : Type :=
| ZeroDivisionError
| TypeError
| ValueError
| KeyError
| FileNotFoundError
| IsADirectoryError
| DataFileNotFound        (* utils/errors.py, subclass of FileNotFoundError *)
| LLMConfigError          (* utils/errors.py, subclass of ValueError *)
| RuntimeError.

(** A raised exception: its class and what [str(e)] yields. *)
Record exn : Type := Raise { cls : exn_class; str : string }.

(** The outcome of evaluating an expression: a value or a raised exception. *)
Inductive result (A : Type) : Type :=
| Ok (a : A)
| Err (e : exn).
Arguments Ok {A} a.
Arguments Err {A} e.

Definition bind {A B : Type} (m : result A) (k : A -> result B) : result B :=
  match m with
  | Ok a => k a
  | Err e => Err e
  end.

(** [try: body  except Exception as e: handler e] *)
Definition try_except {A : Type} (body : result A) (handler : exn -> result A)
  : result A :=
  match body with
  | Ok a => Ok a
  | Err e => handler e
  end.

(** [mapM]: evaluate the elements left to right, stop at the first raise. *)
Fixpoint traverse {A B : Type} (f : A -> result B) (l : list A)
  : result (list B) :=
  match l with
  | [] => Ok []
  | x :: xs =>
      match f x with
      | Err e => Err e
      | Ok y =>
          match traverse f xs with
          | Err e => Err e
          | Ok ys => Ok (y :: ys)
          end
      end
  end.

(** *** Slicing: [l[start:]]

    CPython adjusts the start index as follows: a negative index is
    counted from the end and clipped at 0, an index beyond the end is
    clipped at [len(l)]. *)
Definition adjust_start (len start : Z) : Z :=
  if start <? 0 then Z.max (start + len) 0
  else Z.min start len.

Definition slice_from {A : Type} (l : list A) (start : Z) : list A :=
  skipn (Z.to_nat (adjust_start (Z.of_nat (List.length l)) start)) l.

(** *** Numbers *)

(** The binary64 value nearest to the rational [p / q] (ties to even),
    for [q > 0]. *)
Definition Z2SF (z : Z) : spec_float :=
  match z with
  | Z0 => S754_zero false
  | Zpos p => S754_finite false p 0
  | Zneg p => S754_finite true p 0
  end.

Definition nearest_float (p q : Z) : float :=
  SF2Prim (SFdiv prec emax (Z2SF p) (Z2SF q)).

(** [a / b] on Python integers: the correctly rounded quotient, or
    [ZeroDivisionError]. *)
Definition int_truediv (a b : Z) : result float :=
  if b =? 0 then Err (Raise ZeroDivisionError "division by zero")
  else Ok (if b <? 0 then nearest_float (- a) (- b) else nearest_float a b).

(** Rounding a non-negative rational [m * 2^e] to an integer, halves to
    the even neighbour. *)
Definition round_half_even (m e : Z) : Z :=
  if 0 <=? e then m * 2 ^ e
  else
    let d := 2 ^ (- e) in
    let q := m / d in
    let r := m mod d in
    match 2 * r ?= d with
    | Lt => q
    | Gt => q + 1
    | Eq => if Z.even q then q else q + 1
    end.

(** The built-in [round(x, 2)] on a Python float: the exact value of [x]
    is rounded to two decimals (halves to even) and the decimal result is
    converted back to the nearest float; zeros, infinities and NaN round
    to themselves and the sign is kept. *)
Definition round2 (x : float) : float :=
  match Prim2SF x with
  | S754_finite s m e =>
      let n := round_half_even (Zpos m * 100) e in
      match n with
      | Zpos p => SF2Prim (SFdiv prec emax (S754_finite s p 0) (Z2SF 100))
      | _ => if s then neg_zero else zero
      end
  | _ => x
  end.

(** *** Strings *)

(** The ASCII whitespace that [str.strip] removes; whitespace outside ASCII,
    which spans several bytes of the string, is left in place. *)
Definition is_space (c : ascii) : bool :=
  let n := N.of_nat (nat_of_ascii c) in
  (N.eqb n 32 || (N.leb 9 n && N.leb n 13) || (N.leb 28 n && N.leb n 31))%bool.

Fixpoint lstrip (s : string) : string :=
  match s with
  | String c s' => if is_space c then lstrip s' else s
  | EmptyString => EmptyString
  end.

Fixpoint rstrip (s : string) : string :=
  match s with
  | EmptyString => EmptyString
  | String c s' =>
      match rstrip s' with
      | EmptyString => if is_space c then EmptyString else String c EmptyString
      | t => String c t
      end
  end.

Definition strip (s : string) : string := rstrip (lstrip s).

(** ["sep".join(l)] *)
Fixpoint join (sep : string) (l : list string) : string :=
  match l with
  | [] => ""
  | [x] => x
  | x :: xs => x ++ sep ++ join sep xs
  end.

End Py.

Import Py.

Declare Scope py_scope.
Notation "x <- m ;; k" := (Py.bind m (fun x => k))
  (at level 61, m at next level, right associativity) : py_scope.
Local Open Scope py_scope.

(* ================================================================= *)
(** ** app/memory/session_memory.py *)

Module SessionMemory.

(** One history entry, the dict [{"question": q, "answer": a}]. *)
Record entry : Type := Entry { question : string; answer : string }.

(** [self.history] *)
Definition t : Type := list entry.

(** [__init__] *)
Definition init : t := [].

(** [add]: [self.history.append({...})] *)
Definition add (h : t) (q a : string) : t := (h ++ [Entry q a])%list.

(** [get_history]: [return self.history[-n:]] *)
Definition get_history (h : t) (n : Z) : list entry :=
  Py.slice_from h (- n).

(** The default argument [n = 5]. *)
Definition get_history_default (h : t) : list entry := get_history h 5.

End SessionMemory.

(* ================================================================= *)
(** ** Python objects that occur in analysis results *)

Module Value.

(** A homogeneous numpy array. *)
Inductive ndarray : Type :=
| ArrInt (zs : list Z)
| ArrFloat (fs : list float)
| ArrBool (bs : list bool).

(** Objects of numpy and pandas that are not plain Python values. *)
Inductive libobj : Type :=
| NpInt (z : Z)            (* numpy.integer *)
| NpFloat (f : float)      (* numpy.float64, which derives from float *)
| NpFloat32 (f : float)    (* any other numpy.floating, such as float32 *)
| NpBool (b : bool)        (* numpy.bool_ *)
| NpArray (a : ndarray)    (* numpy.ndarray *)
| NpDtype (name : string)  (* a numpy dtype object, [name] is its [str] *)
| PdInt64Dtype             (* pandas.Int64Dtype() *)
| PdNA.                    (* pandas.NA *)

(** Python values: the plain ones and, under [PLib], library objects.
    Dictionaries keep their insertion order; all keys in this program are
    strings. *)
Inductive pyobj : Type :=
| PNone
| PBool (b : bool)
| PInt (z : Z)
| PFloat (f : float)
| PStr (s : string)
| PList (l : list pyobj)
| PDict (d : list (string * pyobj))
| PLib (o : libobj).

Definition np_int (z : Z) : pyobj := PLib (NpInt z).
Definition np_float (f : float) : pyobj := PLib (NpFloat f).
Definition np_dtype (name : string) : pyobj := PLib (NpDtype name).

Definition empty_dict : pyobj := PDict [].

(** [d.get(k)] on an insertion-ordered dictionary. *)
Fixpoint dict_get (k : string) (d : list (string * pyobj)) : option pyobj :=
  match d with
  | [] => None
  | (k', v) :: d' => if String.eqb k k' then Some v else dict_get k d'
  end.

Definition has_key (k : string) (o : pyobj) : bool :=
  match o with
  | PDict d => match dict_get k d with Some _ => true | None => false end
  | _ => false
  end.

(** [results[k]] and [results[k1][k2]] on the outcome of an operation. *)
Definition lookup2 (k1 k2 : string) (results : result pyobj) : option pyobj :=
  match results with
  | Ok (PDict d) =>
      match dict_get k1 d with
      | Some (PDict d') => dict_get k2 d'
      | _ => None
      end
  | _ => None
  end.

Definition lookup1 (k : string) (results : result pyobj) : option pyobj :=
  match results with
  | Ok (PDict d) => dict_get k d
  | _ => None
  end.

End Value.

Import Value.

(* ================================================================= *)
(** ** The table and the pandas operations used on it *)

Module Pandas.

(** One record of the table, with the columns the analyzer reads.  A
    missing cell is [None] in a string or integer column and NaN in a
    float column. *)
Record Row : Type := MkRow {
  Payment_Method   : option string;
  Earnings_USD     : float;
  Hourly_Rate      : float;
  Client_Region    : option string;
  Experience_Level : option string;
  Job_Completed    : option Z;
  Job_Success_Rate : float;
  Client_Rating    : float
}.

Definition DataFrame : Type := list Row.

(** What pandas and numpy compute numerically is taken as an interface:
    the aggregates of a group column and of a series (both skip NaN), the
    two-decimal rounding of a frame cell and of a numpy scalar, and the CSV
    reader. *)
Class Ops : Type := {
  group_mean    : list float -> float;
  group_median  : list float -> float;
  group_sum     : list float -> float;
  frame_round2  : float -> float;
  series_mean   : list float -> float;
  series_median : list float -> float;
  scalar_round2 : float -> float;
  read_csv      : string -> result DataFrame
}.

Definition notna (x : float) : bool := negb (is_nan x).

(** The [count] aggregate: the number of cells that are not NaN. *)
Definition count (xs : list float) : Z :=
  Z.of_nat (List.length (filter notna xs)).

(** [df[mask]] *)
Definition select (mask : Row -> bool) (df : DataFrame) : DataFrame :=
  filter mask df.

(** [series == s] on a string column: a missing cell compares unequal. *)
Definition str_eq (c : option string) (s : string) : bool :=
  match c with
  | Some v => String.eqb v s
  | None => false
  end.

(** [series < k] on an integer column: a missing cell compares false. *)
Definition int_lt (c : option Z) (k : Z) : bool :=
  match c with
  | Some v => v <? k
  | None => false
  end.

(** *** [groupby]

    Groups are keyed by the distinct values of the key column in sorted
    order; records whose key is missing belong to no group; inside a
    group the records keep the order of the table. *)
Fixpoint add_to_group (k : string) (r : Row) (gs : list (string * list Row))
  : list (string * list Row) :=
  match gs with
  | [] => [(k, [r])]
  | (k', rs) :: gs' =>
      match String.compare k k' with
      | Eq => (k', (rs ++ [r])%list) :: gs'
      | Lt => (k, [r]) :: gs
      | Gt => (k', rs) :: add_to_group k r gs'
      end
  end.

Definition groupby (key : Row -> option string) (df : DataFrame)
  : list (string * list Row) :=
  fold_left
    (fun gs r => match key r with
                 | Some k => add_to_group k r gs
                 | None => gs
                 end)
    df [].

(** The per-group [count] of the earnings column, summed over the groups. *)
Definition group_total (gs : list (string * list Row)) : Z :=
  fold_right (fun g acc => count (map Earnings_USD (snd g)) + acc) 0 gs.

(** *** Column listing, as [get_data_info] reports it *)

Definition columns : list string :=
  [ "Payment_Method"; "Earnings_USD"; "Hourly_Rate"; "Client_Region";
    "Experience_Level"; "Job_Completed"; "Job_Success_Rate"; "Client_Rating" ].

Definition is_some {A : Type} (o : option A) : bool :=
  match o with Some _ => true | None => false end.

(** A record with a payment method and an earnings value. *)
Definition complete (r : Row) : bool :=
  is_some (Payment_Method r) && notna (Earnings_USD r).

(** An integer column with a missing cell is held as float64. *)
Definition job_completed_is_int (df : DataFrame) : bool :=
  forallb (fun r => is_some (Job_Completed r)) df.

(** [dict(df.dtypes)] *)
Definition dtypes (df : DataFrame) : list (string * pyobj) :=
  [ ("Payment_Method", np_dtype "object");
    ("Earnings_USD", np_dtype "float64");
    ("Hourly_Rate", np_dtype "float64");
    ("Client_Region", np_dtype "object");
    ("Experience_Level", np_dtype "object");
    ("Job_Completed",
      np_dtype (if job_completed_is_int df then "int64" else "float64"));
    ("Job_Success_Rate", np_dtype "float64");
    ("Client_Rating", np_dtype "float64") ].

Definition count_if {A : Type} (p : A -> bool) (l : list A) : Z :=
  Z.of_nat (List.length (filter p l)).

(** [dict(df.isnull().sum())] *)
Definition missing_values (df : DataFrame) : list (string * pyobj) :=
  [ ("Payment_Method", np_int (count_if (fun r => negb (is_some (Payment_Method r))) df));
    ("Earnings_USD", np_int (count_if (fun r => is_nan (Earnings_USD r)) df));
    ("Hourly_Rate", np_int (count_if (fun r => is_nan (Hourly_Rate r)) df));
    ("Client_Region", np_int (count_if (fun r => negb (is_some (Client_Region r))) df));
    ("Experience_Level", np_int (count_if (fun r => negb (is_some (Experience_Level r))) df));
    ("Job_Completed", np_int (count_if (fun r => negb (is_some (Job_Completed r))) df));
    ("Job_Success_Rate", np_int (count_if (fun r => is_nan (Job_Success_Rate r)) df));
    ("Client_Rating", np_int (count_if (fun r => is_nan (Client_Rating r)) df)) ].

Definition str_cell (c : option string) : pyobj :=
  match c with
  | Some s => PStr s
  | None => PFloat nan
  end.

Definition int_cell (as_int : bool) (c : option Z) : pyobj :=
  match c with
  | Some z => if as_int then PInt z else PFloat (Py.nearest_float z 1)
  | None => PFloat nan
  end.

(** One record of [df.to_dict("records")], with plain Python values. *)
Definition record_dict (as_int : bool) (r : Row) : pyobj :=
  PDict
    [ ("Payment_Method", str_cell (Payment_Method r));
      ("Earnings_USD", PFloat (Earnings_USD r));
      ("Hourly_Rate", PFloat (Hourly_Rate r));
      ("Client_Region", str_cell (Client_Region r));
      ("Experience_Level", str_cell (Experience_Level r));
      ("Job_Completed", int_cell as_int (Job_Completed r));
      ("Job_Success_Rate", PFloat (Job_Success_Rate r));
      ("Client_Rating", PFloat (Client_Rating r)) ].

(** [df.head().to_dict("records")] *)
Definition head_records (df : DataFrame) : list pyobj :=
  map (record_dict (job_completed_is_int df)) (firstn 5 df).

End Pandas.

Import Pandas.

(* ================================================================= *)
(** ** document_loaders/csv_loader.py, utils/errors.py *)

Module CsvLoader.

(** What a path resolves to on the file system. *)
Inductive fs_entry : Type :=
| Directory
| File (content : string).

(** The file system: a path resolves to an entry or to nothing. *)
Definition filesystem : Type := string -> option fs_entry.

(** [Path.exists()] *)
Definition exists_ (fs : filesystem) (path : string) : bool :=
  match fs path with Some _ => true | None => false end.

(** [pd.read_csv(path)]: opening a directory fails in the operating
    system, a regular file is handed to the reader. *)
Definition pd_read_csv `{Ops} (fs : filesystem) (path : string)
  : result DataFrame :=
  match fs path with
  | Some (File content) => read_csv content
  | Some Directory =>
      Err (Raise IsADirectoryError ("[Errno 21] Is a directory: '" ++ path ++ "'"))
  | None =>
      Err (Raise FileNotFoundError ("[Errno 2] No such file or directory: '" ++ path ++ "'"))
  end.

(** [FreelancerCSVLoader(path).load()] *)
Definition load `{Ops} (fs : filesystem) (path : string) : result DataFrame :=
  if negb (exists_ fs path)
  then Err (Raise DataFileNotFound ("Файл не найден: " ++ path))
  else pd_read_csv fs path.

End CsvLoader.

(* ================================================================= *)
(** ** app/models/data_analyzer.py *)

Module DataAnalyzer.

Section Analyzer.

Context `{Ops}.

(** [FreelancerDataAnalyzer]: [self.data_path] and [self.df]. *)
Record t : Type := Make { data_path : string; df : option DataFrame }.

(** [__init__] with [_load_data]: the table is loaded by the loader
    that [loader_cls] builds, and a failure of the loader propagates.  The
    line printed after loading is not part of the model. *)
Definition init (loader : string -> result DataFrame) (path : string)
  : result t :=
  table <- loader path ;;
  Ok (Make path (Some table)).

(** [get_data_info] *)
Definition get_data_info (self : t) : result pyobj :=
  match df self with
  | None => Ok empty_dict
  | Some df =>
      Ok (PDict
            [ ("total_records", PInt (Z.of_nat (List.length df)));
              ("columns", PList (map PStr columns));
              ("data_types", PDict (dtypes df));
              ("missing_values", PDict (missing_values df));
              ("sample_data", PList (head_records df)) ])
  end.

(** The entry of one payment-method group. *)
Definition payment_entry (rs : list Row) : pyobj :=
  let earnings := map Earnings_USD rs in
  let rates := map Hourly_Rate rs in
  PDict
    [ ("avg_earnings", np_float (frame_round2 (group_mean earnings)));
      ("median_earnings", np_float (frame_round2 (group_median earnings)));
      ("total_freelancers", np_int (count earnings));
      ("total_earnings", np_float (frame_round2 (group_sum earnings)));
      ("avg_hourly_rate", np_float (frame_round2 (group_mean rates)));
      ("median_hourly_rate", np_float (frame_round2 (group_median rates))) ].

(** [get_payment_method_analysis] *)
Definition get_payment_method_analysis (self : t) : result pyobj :=
  match df self with
  | None => Ok empty_dict
  | Some df =>
      let payment_stats := groupby Payment_Method df in
      Ok (PDict (map (fun g => (fst g, payment_entry (snd g))) payment_stats))
  end.

(** The entry of one region group. *)
Definition region_entry (rs : list Row) : pyobj :=
  let earnings := map Earnings_USD rs in
  let rates := map Hourly_Rate rs in
  PDict
    [ ("avg_earnings", np_float (frame_round2 (group_mean earnings)));
      ("median_earnings", np_float (frame_round2 (group_median earnings)));
      ("total_freelancers", np_int (count earnings));
      ("total_earnings", np_float (frame_round2 (group_sum earnings)));
      ("avg_hourly_rate", np_float (frame_round2 (group_mean rates)));
      ("avg_success_rate",
        np_float (frame_round2 (group_mean (map Job_Success_Rate rs))));
      ("avg_client_rating",
        np_float (frame_round2 (group_mean (map Client_Rating rs)))) ].

(** [get_region_analysis] *)
Definition get_region_analysis (self : t) : result pyobj :=
  match df self with
  | None => Ok empty_dict
  | Some df =>
      let region_stats := groupby Client_Region df in
      Ok (PDict (map (fun g => (fst g, region_entry (snd g))) region_stats))
  end.

(** [self.df[self.df["Experience_Level"] == "Expert"]] *)
Definition experts_of (df : DataFrame) : DataFrame :=
  select (fun r => str_eq (Experience_Level r) "Expert") df.

(** [experts[experts["Job_Completed"] < 100]] *)
Definition experts_under_100_of (df : DataFrame) : DataFrame :=
  select (fun r => int_lt (Job_Completed r) 100) (experts_of df).

(** [round((len(experts_under_100) / len(experts)) * 100, 2)] *)
Definition percentage (under total : Z) : result float :=
  ratio <- Py.int_truediv under total ;;
  Ok (Py.round2 (ratio * 100)%float).

(** [get_expert_analysis] *)
Definition get_expert_analysis (self : t) : result pyobj :=
  match df self with
  | None => Ok empty_dict
  | Some df =>
      let experts := experts_of df in
      let experts_under_100 := experts_under_100_of df in
      let total := Z.of_nat (List.length experts) in
      let under := Z.of_nat (List.length experts_under_100) in
      pct <- percentage under total ;;
      Ok (PDict
            [ ("total_experts", PInt total);
              ("experts_under_100_projects", PInt under);
              ("percentage", PFloat pct);
              ("avg_earnings_under_100",
                np_float (series_mean (map Earnings_USD experts_under_100)));
              ("avg_earnings_all_experts",
                np_float (series_mean (map Earnings_USD experts))) ])
  end.

(** The statistics of one side of the crypto comparison. *)
Definition side_stats (users : DataFrame) : pyobj :=
  PDict
    [ ("count", PInt (Z.of_nat (List.length users)));
      ("avg_earnings", np_float (series_mean (map Earnings_USD users)));
      ("median_earnings", np_float (series_median (map Earnings_USD users)));
      ("avg_hourly_rate", np_float (series_mean (map Hourly_Rate users))) ].

(** [get_crypto_vs_other_analysis]; the arithmetic is numpy's, where a
    division by zero yields an infinity or NaN. *)
Definition get_crypto_vs_other_analysis (self : t) : result pyobj :=
  match df self with
  | None => Ok empty_dict
  | Some df =>
      let crypto_users := select (fun r => str_eq (Payment_Method r) "Crypto") df in
      let other_users :=
        select (fun r => negb (str_eq (Payment_Method r) "Crypto")) df in
      let crypto_mean := series_mean (map Earnings_USD crypto_users) in
      let other_mean := series_mean (map Earnings_USD other_users) in
      let crypto_rate := series_mean (map Hourly_Rate crypto_users) in
      let other_rate := series_mean (map Hourly_Rate other_users) in
      Ok (PDict
            [ ("crypto_stats", side_stats crypto_users);
              ("other_stats", side_stats other_users);
              ("difference",
                PDict
                  [ ("earnings_difference",
                      np_float (crypto_mean - other_mean)%float);
                    ("hourly_rate_difference",
                      np_float (crypto_rate - other_rate)%float);
                    ("percentage_difference",
                      np_float
                        (scalar_round2
                           (((crypto_mean - other_mean) / other_mean) * 100)%float))
                  ]) ])
  end.

End Analyzer.

(** The percentage as the specification words it:
    [round(100 * experts_under_100_projects / total_experts, 2)]. *)
Definition spec_percentage (under total : Z) : result float :=
  quotient <- Py.int_truediv (100 * under) total ;;
  Ok (Py.round2 quotient).

(** The [total_freelancers] count of one group entry. *)
Definition total_freelancers (entry : pyobj) : Z :=
  match entry with
  | PDict d =>
      match dict_get "total_freelancers" d with
      | Some (PLib (NpInt c)) => c
      | _ => 0
      end
  | _ => 0
  end.

(** The sum of the [total_freelancers] counts over the groups of a result. *)
Definition sum_total_freelancers (results : pyobj) : Z :=
  match results with
  | PDict groups =>
      fold_right (fun g acc => total_freelancers (snd g) + acc) 0 groups
  | _ => 0
  end.

End DataAnalyzer.

(* ================================================================= *)
(** ** app/chains/analysis_chain.py: [NpEncoder] and [json.dumps] *)

Module Json.

(** The document that [json.dumps] writes, before it is laid out as text. *)
Inductive json : Type :=
| JNull
| JBool (b : bool)
| JInt (z : Z)
| JFloat (f : float)
| JStr (s : string)
| JArr (l : list json)
| JObj (d : list (string * json)).

(** [ndarray.tolist()] *)
Definition tolist (a : ndarray) : pyobj :=
  match a with
  | ArrInt zs => PList (map PInt zs)
  | ArrFloat fs => PList (map PFloat fs)
  | ArrBool bs => PList (map PBool bs)
  end.

Definition type_name (o : libobj) : string :=
  match o with
  | NpInt _ => "int64"
  | NpFloat _ => "float64"
  | NpFloat32 _ => "float32"
  | NpBool _ => "bool_"
  | NpArray _ => "ndarray"
  | NpDtype _ => "dtype"
  | PdInt64Dtype => "Int64Dtype"
  | PdNA => "NAType"
  end.

Definition not_serializable (o : libobj) : exn :=
  Raise TypeError
        ("Object of type " ++ type_name o ++ " is not JSON serializable").

(** [json.JSONEncoder.default]: always raises [TypeError]. *)
Definition super_default (o : libobj) : result pyobj :=
  Err (not_serializable o).

(** [str(obj)] of a library object that reaches the last branch of
    [NpEncoder.default]. *)
Definition str_of (o : libobj) : string :=
  match o with
  | NpDtype name => name
  | _ => type_name o
  end.

(** [NpEncoder.default], called by the encoder on every object that it
    does not write itself.  ([numpy.float64] derives from [float]: the
    encoder writes it itself and does not call [default] on it.) *)
Definition default (obj : libobj) : result pyobj :=
  match obj with
  | NpInt z => Ok (PInt z)                       (* int(obj) *)
  | NpFloat f => Ok (PFloat f)                   (* float(obj) *)
  | NpFloat32 f => Ok (PFloat f)                 (* float(obj) *)
  | NpArray a => Ok (tolist a)                   (* obj.tolist() *)
  | NpBool b => Ok (PBool b)                     (* bool(obj) *)
  | PdInt64Dtype =>                              (* int(obj) raises *)
      Err (Raise TypeError
             "int() argument must be a string, a bytes-like object or a real number, not 'Int64Dtype'")
  | PdNA => Ok PNone
  | NpDtype _ =>
      Py.try_except (super_default obj) (fun _ => Ok (PStr (str_of obj)))
  end.

Section Encoder.

(** The hook for objects that the encoder does not write itself. *)
Variable hook : libobj -> result json.

(** The encoder walks lists and dictionaries, writes plain values, writes
    a [numpy.float64] as the float it is, and hands every other object to
    the hook. *)
Fixpoint encode_with (o : pyobj) : result json :=
  match o with
  | PNone => Ok JNull
  | PBool b => Ok (JBool b)
  | PInt z => Ok (JInt z)
  | PFloat f => Ok (JFloat f)
  | PStr s => Ok (JStr s)
  | PList l =>
      js <- (fix items (l : list pyobj) : result (list json) :=
               match l with
               | [] => Ok []
               | x :: xs =>
                   j <- encode_with x ;;
                   js <- items xs ;;
                   Ok (j :: js)
               end) l ;;
      Ok (JArr js)
  | PDict d =>
      js <- (fix members (d : list (string * pyobj))
               : result (list (string * json)) :=
               match d with
               | [] => Ok []
               | (k, v) :: d' =>
                   j <- encode_with v ;;
                   js <- members d' ;;
                   Ok ((k, j) :: js)
               end) d ;;
      Ok (JObj js)
  | PLib (NpFloat f) => Ok (JFloat f)
  | PLib x => hook x
  end.

End Encoder.

(** The encoder of [json.JSONEncoder] itself: an object handed to the hook
    is refused. *)
Definition standard_encode : pyobj -> result json :=
  encode_with (fun x => Err (not_serializable x)).

(** The encoder with [cls=NpEncoder]: the value that [default] returns is
    encoded in place of the object. *)
Definition encode : pyobj -> result json :=
  encode_with (fun x => o <- default x ;; standard_encode o).

(** The plain value the specification asks for in place of a library
    object: integers, floats, booleans and lists. *)
Definition plain_of (x : libobj) : pyobj :=
  match x with
  | NpInt z => PInt z
  | NpFloat f => PFloat f
  | NpFloat32 f => PFloat f
  | NpBool b => PBool b
  | NpArray (ArrInt zs) => PList (map PInt zs)
  | NpArray (ArrFloat fs) => PList (map PFloat fs)
  | NpArray (ArrBool bs) => PList (map PBool bs)
  | NpDtype name => PStr name
  | PdInt64Dtype => PLib PdInt64Dtype
  | PdNA => PNone
  end.

Fixpoint normalize (o : pyobj) : pyobj :=
  match o with
  | PList l => PList (map normalize l)
  | PDict d => PDict (map (fun kv => (fst kv, normalize (snd kv))) d)
  | PLib x => plain_of x
  | _ => o
  end.

(** No library object occurs in the value. *)
Fixpoint plain (o : pyobj) : bool :=
  match o with
  | PList l => forallb plain l
  | PDict d => forallb (fun kv => plain (snd kv)) d
  | PLib _ => false
  | _ => true
  end.

(** No [pandas.Int64Dtype] object occurs in the value. *)
Fixpoint encodable (o : pyobj) : bool :=
  match o with
  | PList l => forallb encodable l
  | PDict d => forallb (fun kv => encodable (snd kv)) d
  | PLib PdInt64Dtype => false
  | _ => true
  end.

End Json.

Import Json.

(* ================================================================= *)
(** ** app/chains/analysis_chain.py: [FreelancerAnalysisChain] *)

Module AnalysisChain.

(** The variables handed to the interpretation prompt; [context] is set
    only when there is history. *)
Record prompt_vars : Type := PromptVars {
  pv_question : string;
  pv_analysis_results : string;
  pv_context : option string
}.

(** The collaborators outside the repository: the two language-model
    chains, each of which answers or raises, and the text layout of
    [json.dumps(..., ensure_ascii=False, indent=2)]. *)
Class Services : Type := {
  classification_chain : string -> result string;
  interpretation_chain : prompt_vars -> result string;
  json_text : json -> string
}.

(** [self.data_analyzer] and [self.memory]. *)
Record t : Type := Make {
  data_analyzer : DataAnalyzer.t;
  memory : SessionMemory.t
}.

Definition newline : string := String (ascii_of_nat 10) EmptyString.

Definition error_prefix : string := "Произошла ошибка при обработке вопроса: ".
Definition analysis_error_prefix : string := "Ошибка при анализе данных: ".
Definition fallback_message : string :=
  "Для данного типа вопроса требуется дополнительный анализ".

Section Chain.

Context `{Ops} `{Services}.

(** The body of the [try] block of [_get_analysis_data]. *)
Definition dispatch (self : t) (analysis_type : string) : result pyobj :=
  if String.eqb analysis_type "payment_method" then
    DataAnalyzer.get_payment_method_analysis (data_analyzer self)
  else if String.eqb analysis_type "region" then
    DataAnalyzer.get_region_analysis (data_analyzer self)
  else if String.eqb analysis_type "expert" then
    DataAnalyzer.get_expert_analysis (data_analyzer self)
  else if String.eqb analysis_type "crypto_comparison" then
    DataAnalyzer.get_crypto_vs_other_analysis (data_analyzer self)
  else if String.eqb analysis_type "general_info" then
    DataAnalyzer.get_data_info (data_analyzer self)
  else
    general_stats <- DataAnalyzer.get_data_info (data_analyzer self) ;;
    Ok (PDict [ ("message", PStr fallback_message);
                ("general_stats", general_stats) ]).

(** [_get_analysis_data] *)
Definition _get_analysis_data (self : t) (analysis_type question : string)
  : result pyobj :=
  Py.try_except
    (dispatch self analysis_type)
    (fun e => Ok (PDict [ ("error", PStr (analysis_error_prefix ++ str e)) ])).

(** The analyzer operation that the dispatcher invokes for a label. *)
Definition operation_for (analysis_type : string)
  : DataAnalyzer.t -> result pyobj :=
  if String.eqb analysis_type "payment_method" then
    DataAnalyzer.get_payment_method_analysis
  else if String.eqb analysis_type "region" then
    DataAnalyzer.get_region_analysis
  else if String.eqb analysis_type "expert" then
    DataAnalyzer.get_expert_analysis
  else if String.eqb analysis_type "crypto_comparison" then
    DataAnalyzer.get_crypto_vs_other_analysis
  else DataAnalyzer.get_data_info.

(** ["\n".join([f"Q: {h['question']}\nA: {h['answer']}" for h in history])
    if history else ""] *)
Definition context_of (history : list SessionMemory.entry) : string :=
  match history with
  | [] => ""
  | _ =>
      Py.join newline
        (map (fun h => "Q: " ++ SessionMemory.question h ++ newline
                       ++ "A: " ++ SessionMemory.answer h)
             history)
  end.

(** [json.dumps(analysis_results, ensure_ascii=False, indent=2, cls=NpEncoder)] *)
Definition dumps (o : pyobj) : result string :=
  j <- Json.encode o ;;
  Ok (json_text j).

(** The body of the [try] block of [analyze_question]: the answer and
    the chain with its memory extended. *)
Definition analyze_question_try (self : t) (question : string)
  : result (string * t) :=
  raw <- classification_chain question ;;
  let analysis_type := Py.strip raw in
  analysis_results <- _get_analysis_data self analysis_type question ;;
  let history := SessionMemory.get_history_default (memory self) in
  let context := context_of history in
  formatted_results <- dumps analysis_results ;;
  let vars :=
    PromptVars question formatted_results
               (if String.eqb context "" then None else Some context) in
  response <- interpretation_chain vars ;;
  Ok (response,
      Make (data_analyzer self)
           (SessionMemory.add (memory self) question response)).

(** [analyze_question] *)
Definition analyze_question (self : t) (question : string)
  : result (string * t) :=
  Py.try_except
    (analyze_question_try self question)
    (fun e => Ok (error_prefix ++ str e, self)).

(** An exception is thrown during classification, serialization of the
    analysis result or interpretation. *)
Inductive thrown_in (self : t) (question : string) (e : exn) : Prop :=
| in_classification :
    classification_chain question = Err e ->
    thrown_in self question e
| in_serialization (raw : string) (results : pyobj) :
    classification_chain question = Ok raw ->
    _get_analysis_data self (Py.strip raw) question = Ok results ->
    dumps results = Err e ->
    thrown_in self question e
| in_interpretation (raw : string) (results : pyobj) (text : string) :
    classification_chain question = Ok raw ->
    _get_analysis_data self (Py.strip raw) question = Ok results ->
    dumps results = Ok text ->
    interpretation_chain
      (PromptVars question text
         (let context :=
            context_of (SessionMemory.get_history_default (memory self)) in
          if String.eqb context "" then None else Some context)) = Err e ->
    thrown_in self question e.

End Chain.

End AnalysisChain.

(* ================================================================= *)
(** ** Which values an encoder accepts *)

Module Admission.

(** Every library object in the value passes the test [ok]. *)
Fixpoint admits (ok : libobj -> bool) (o : pyobj) : bool :=
  match o with
  | PList l => forallb (admits ok) l
  | PDict d => forallb (fun kv => admits ok (snd kv)) d
  | PLib x => ok x
  | _ => true
  end.

(** The library objects that the encoder writes itself. *)
Definition float64_only (x : libobj) : bool :=
  match x with
  | NpFloat _ => true
  | _ => false
  end.

(** The library objects that [NpEncoder.default] converts. *)
Definition convertible (x : libobj) : bool :=
  match x with
  | PdInt64Dtype => false
  | _ => true
  end.

(** The outcome of an encoder on a value, told from the library objects in
    it: a document when the hook accepts each of them, a [TypeError]
    otherwise. *)
Definition decided (hook : libobj -> result json) (ok : libobj -> bool)
           (o : pyobj) : Prop :=
  if admits ok o
  then exists j, Json.encode_with hook o = Ok j
  else exists e, Json.encode_with hook o = Err e /\ cls e = TypeError.

End Admission.

(* ================================================================= *)
(** ** Looking into the groups *)

Module Grouping.

(** The records of the group with key [k], if there is such a group. *)
Fixpoint lookup_group (k : string) (gs : list (string * list Row))
  : option (list Row) :=
  match gs with
  | [] => None
  | (k', rs) :: gs' => if String.eqb k k' then Some rs else lookup_group k gs'
  end.

(** The order of the group keys. *)
Definition str_lt (a b : string) : Prop := String.compare a b = Lt.

(** One turn of the loop of [groupby]. *)
Definition step (key : Row -> option string)
           (gs : list (string * list Row)) (r : Row) : list (string * list Row) :=
  match key r with
  | Some k => add_to_group k r gs
  | None => gs
  end.

(** What the groups hold after the records [seen]: the keys are in
    strictly increasing order, and under each key that occurs are the records
    with that key, in the order seen. *)
Definition groups_of (key : Row -> option string)
           (seen : list Row) (gs : list (string * list Row)) : Prop :=
  StronglySorted str_lt (map fst gs)
  /\ forall k,
       lookup_group k gs
       = if existsb (fun r => str_eq (key r) k) seen
         then Some (filter (fun r => str_eq (key r) k) seen)
         else None.

(** The group keys of a result, in the order of the dictionary. *)
Definition keys (results : pyobj) : list string :=
  match results with
  | PDict d => map fst d
  | _ => []
  end.

End Grouping.

(* ================================================================= *)
(** ** app/models/data_analyzer.py: [execute_custom_query] *)

Module CustomQuery.

(** [eval(f"self.df.{query}")]: the evaluation of an expression on the
    table is Python's; it yields some value, [None] among them, or raises. *)
Class Interpreter : Type := {
  value : Type;
  none : value;
  eval_on : DataFrame -> string -> result value
}.

(** What [execute_custom_query] returns: a message of its own, or a value,
    which is [None] without a table and otherwise what the expression
    yields. *)
Inductive outcome `{Interpreter} : Type :=
| QMessage (text : string)
| QValue (v : value).

Definition allowed_methods : list string :=
  [ "groupby"; "mean"; "median"; "sum"; "count"; "max"; "min"; "head"; "tail";
    "describe"; "value_counts"; "unique"; "sort_values"; "filter"; "query" ].

(** [method in query] *)
Definition contains (method query : string) : bool :=
  match String.index 0 method query with
  | Some _ => true
  | None => false
  end.

Definition rejection : string := "Запрос содержит недопустимые операции".
Definition query_error_prefix : string := "Ошибка выполнения запроса: ".

(** [execute_custom_query]: the [for ... else] leaves the loop at the first
    allowed name found in the query and refuses the query when there is none. *)
Definition execute_custom_query `{Interpreter} (self : DataAnalyzer.t)
           (query : string) : result outcome :=
  match DataAnalyzer.df self with
  | None => Ok (QValue none)
  | Some table =>
      Py.try_except
        (if existsb (fun method => contains method query) allowed_methods
         then v <- eval_on table query ;; Ok (QValue v)
         else Ok (QMessage rejection))
        (fun e => Ok (QMessage (query_error_prefix ++ str e)))
  end.

End CustomQuery.

(* ================================================================= *)
(** ** app/config/llm_config.py *)

Module LLMConfig.

(** The process environment, as [os.getenv] reads it. *)
Definition environ : Type := string -> option string.

(** [os.getenv(name, default)] *)
Definition getenv (env : environ) (name default : string) : string :=
  match env name with
  | Some v => v
  | None => default
  end.

(** [LLMConfig]: the four attributes set by [__init__]. *)
Record t : Type := Make {
  openai_api_key : option string;
  model_name : string;
  temperature : float;
  max_tokens : Z
}.

(** The conversions [float(...)] and [int(...)] of a string, and the
    constructor of the client, are outside the repository. *)
Class Runtime : Type := {
  client : Type;
  py_float : string -> result float;
  py_int : string -> result Z;
  ChatOpenAI : string -> float -> Z -> string -> result client
}.

Definition missing_key_message : string :=
  "OPENAI_API_KEY не найден в переменных окружения. "
  ++ "Пожалуйста, создайте .env файл и добавьте ваш ключ API".

(** [__init__] *)
Definition init `{Runtime} (env : environ) : result t :=
  let key := env "OPENAI_API_KEY" in
  let model := getenv env "OPENAI_MODEL" "gpt-4.1-nano" in
  temp <- py_float (getenv env "OPENAI_TEMPERATURE" "0.0") ;;
  tokens <- py_int (getenv env "OPENAI_MAX_TOKENS" "1000") ;;
  Ok (Make key model temp tokens).

(** [not self.openai_api_key]: [None] and the empty string are false. *)
Definition key_missing (key : option string) : bool :=
  match key with
  | None => true
  | Some k => String.eqb k ""
  end.

(** [validate_config] *)
Definition validate_config (self : t) : result bool :=
  if key_missing (openai_api_key self)
  then Err (Raise LLMConfigError missing_key_message)
  else Ok true.

(** [create_llm] *)
Definition create_llm `{Runtime} (self : t) : result client :=
  _ <- validate_config self ;;
  ChatOpenAI (model_name self) (temperature self) (max_tokens self)
             (match openai_api_key self with Some k => k | None => "" end).

(** [get_llm] *)
Definition get_llm `{Runtime} (env : environ) : result client :=
  config <- init env ;;
  create_llm config.

End LLMConfig.

(* ================================================================= *)
(** ** app/chains/analysis_chain.py: building the chain *)

Module ChainInit.

Definition default_data_path : string := "data/freelancer_earnings_bd.csv".

(** [FreelancerAnalysisChain.__init__]: a given analyzer and a given memory
    are used as they are (both objects are true), otherwise the analyzer is
    built from the default data file and the memory starts empty; then the
    client is obtained.  The two prompt templates are constants of the
    repository, and composing the chains from them is taken to succeed. *)
Definition init `{Ops} `{LLMConfig.Runtime}
           (fs : CsvLoader.filesystem) (env : LLMConfig.environ)
           (data_analyzer : option DataAnalyzer.t)
           (memory : option SessionMemory.t)
  : result (AnalysisChain.t * LLMConfig.client) :=
  analyzer <- match data_analyzer with
              | Some a => Ok a
              | None => DataAnalyzer.init (CsvLoader.load fs) default_data_path
              end ;;
  let mem := match memory with
             | Some m => m
             | None => SessionMemory.init
             end in
  llm <- LLMConfig.get_llm env ;;
  Ok (AnalysisChain.Make analyzer mem, llm).

End ChainInit.

(* ================================================================= *)
(** ** A small executable instance and the tables of the test suite *)

Module Sample.

Definition float_of_Z (z : Z) : float := Py.nearest_float z 1.

(** Left-to-right sum of the cells that are not NaN. *)
Definition naive_sum (xs : list float) : float :=
  fold_left PrimFloat.add (filter notna xs) 0%float.

Definition naive_mean (xs : list float) : float :=
  (naive_sum xs / float_of_Z (Pandas.count xs))%float.

Fixpoint insert_sorted (x : float) (l : list float) : list float :=
  match l with
  | [] => [x]
  | y :: l' => if (x <=? y)%float then x :: l else y :: insert_sorted x l'
  end.

Definition sort (xs : list float) : list float :=
  fold_right insert_sorted [] xs.

Definition naive_median (xs : list float) : float :=
  let s := sort (filter notna xs) in
  let n := List.length s in
  match n with
  | O => nan
  | _ =>
      if Nat.even n
      then ((nth (Nat.div n 2 - 1) s nan + nth (Nat.div n 2) s nan) / 2)%float
      else nth (Nat.div n 2) s nan
  end.

(** Scale by 100, round to the nearest integer (halves to even), scale back. *)
Definition scaled_round2 (x : float) : float :=
  match Prim2SF (x * 100)%float with
  | S754_finite s m e =>
      let n := Py.round_half_even (Zpos m) e in
      ((if s then float_of_Z (- n) else float_of_Z n) / 100)%float
  | _ => x
  end.

Definition header : string := Py.join "," Pandas.columns.

(** A reader for the file that holds the header line and no record. *)
Definition read_header_only (content : string) : result DataFrame :=
  if String.eqb (Py.strip content) header then Ok []
  else Err (Raise ValueError "unsupported file content").

#[global] Instance ops : Ops := {
  group_mean := naive_mean;
  group_median := naive_median;
  group_sum := naive_sum;
  frame_round2 := scaled_round2;
  series_mean := naive_mean;
  series_median := naive_median;
  scalar_round2 := scaled_round2;
  read_csv := read_header_only
}.

(** [MOCK_DATA] of tests/test_data_analyzer.py *)
Definition MOCK_DATA : DataFrame :=
  [ MkRow (Some "Crypto") 1000 50 (Some "EU") (Some "Expert") (Some 120) 98 4.9;
    MkRow (Some "Bank") 800 40 (Some "US") (Some "Expert") (Some 80) 95 4.8;
    MkRow (Some "Crypto") 1200 60 (Some "EU") (Some "Intermediate") (Some 50) 90 4.7;
    MkRow (Some "PayPal") 700 35 (Some "Asia") (Some "Expert") (Some 30) 85 4.6 ].

(** [FreelancerDataAnalyzer(loader_cls=MockLoader)] *)
Definition mock_analyzer : DataAnalyzer.t :=
  DataAnalyzer.Make "data/freelancer_earnings_bd.csv" (Some MOCK_DATA).

(** An analyzer whose table holds no record. *)
Definition empty_analyzer : DataAnalyzer.t :=
  DataAnalyzer.Make "data/freelancer_earnings_bd.csv" (Some []).

Definition expert (jobs : Z) : Row :=
  MkRow (Some "Bank") 800 40 (Some "US") (Some "Expert") (Some jobs) 95 4.8.

(** 160 experts, 23 of them with fewer than 100 completed jobs. *)
Definition experts_23_of_160 : DataFrame :=
  (repeat (expert 30) 23 ++ repeat (expert 120) 137)%list.

(** One record without a payment method, one without earnings. *)
Definition with_missing_cells : DataFrame :=
  [ MkRow None 1000 50 (Some "EU") (Some "Expert") (Some 120) 98 4.9;
    MkRow (Some "Bank") nan 40 (Some "US") (Some "Expert") (Some 80) 95 4.8 ].

(** One record, not an expert. *)
Definition no_expert : DataFrame :=
  [ MkRow (Some "Crypto") 1200 60 (Some "EU") (Some "Intermediate") (Some 50) 90 4.7 ].

Definition experts_analyzer : DataAnalyzer.t :=
  DataAnalyzer.Make "data/freelancer_earnings_bd.csv" (Some experts_23_of_160).

Definition missing_cells_analyzer : DataAnalyzer.t :=
  DataAnalyzer.Make "data/freelancer_earnings_bd.csv" (Some with_missing_cells).

Definition no_expert_analyzer : DataAnalyzer.t :=
  DataAnalyzer.Make "data/freelancer_earnings_bd.csv" (Some no_expert).

(** A file system with the data directory and a header-only data file. *)
Definition fs : CsvLoader.filesystem :=
  fun path =>
    if String.eqb path "data" then Some CsvLoader.Directory
    else if String.eqb path "data/freelancer_earnings_bd.csv"
         then Some (CsvLoader.File (header ++ AnalysisChain.newline))
         else None.

(** A classifier that answers [" expert\n"] and an interpreter that
    answers with a fixed sentence; the JSON layout is left out. *)
#[global] Instance services : AnalysisChain.Services := {
  AnalysisChain.classification_chain := fun _ => Ok (" expert" ++ AnalysisChain.newline);
  AnalysisChain.interpretation_chain := fun _ => Ok "No experts were found.";
  AnalysisChain.json_text := fun _ => "{}"
}.

(** A classifier that is out of service. *)
Definition services_down : AnalysisChain.Services := {|
  AnalysisChain.classification_chain :=
    fun _ => Err (Raise RuntimeError "Connection error.");
  AnalysisChain.interpretation_chain := fun _ => Ok "";
  AnalysisChain.json_text := fun _ => "{}"
|}.

(** The result of the payment-method analysis on [MOCK_DATA]. *)
Definition mock_payment_results : pyobj :=
  Eval vm_compute in
    match DataAnalyzer.get_payment_method_analysis mock_analyzer with
    | Ok results => results
    | Err _ => PNone
    end.

Definition three_entries : SessionMemory.t :=
  [ SessionMemory.Entry "Q1" "A1"; SessionMemory.Entry "Q2" "A2";
    SessionMemory.Entry "Q3" "A3" ].

(** A chain over the table without experts, with three turns of history. *)
Definition no_expert_chain : AnalysisChain.t :=
  AnalysisChain.Make no_expert_analyzer three_entries.

End Sample.

(** *** Further instances for running the definitions *)

Module Fixtures.

(** An evaluator that knows one expression. *)
#[global] Instance interpreter : CustomQuery.Interpreter := {
  CustomQuery.value := option Z;
  CustomQuery.none := None;
  CustomQuery.eval_on := fun table query =>
    if String.eqb query "head(2).shape[0]"
    then Ok (Some (Z.of_nat (List.length (firstn 2 table))))
    else Err (Raise TypeError "unsupported expression")
}.

(** Conversions that know the two default settings. *)
#[global] Instance runtime : LLMConfig.Runtime := {
  LLMConfig.client := LLMConfig.t;
  LLMConfig.py_float := fun s =>
    if String.eqb s "0.0" then Ok 0%float
    else Err (Raise ValueError ("could not convert string to float: '" ++ s ++ "'"));
  LLMConfig.py_int := fun s =>
    if String.eqb s "1000" then Ok 1000
    else Err (Raise ValueError ("invalid literal for int() with base 10: '" ++ s ++ "'"));
  LLMConfig.ChatOpenAI := fun model temp tokens key =>
    Ok (LLMConfig.Make (Some key) model temp tokens)
}.

(** An environment without any of the settings. *)
Definition empty_env : LLMConfig.environ := fun _ => None.

(** An environment with an empty key. *)
Definition blank_key_env : LLMConfig.environ :=
  fun name => if String.eqb name "OPENAI_API_KEY" then Some "" else None.

(** An environment with a key. *)
Definition key_env : LLMConfig.environ :=
  fun name => if String.eqb name "OPENAI_API_KEY" then Some "sk-test" else None.

(** A file system without the data file. *)
Definition no_files : CsvLoader.filesystem := fun _ => None.

(** Two experts, both with 100 completed jobs or more. *)
Definition seniors : DataFrame := [ Sample.expert 120; Sample.expert 250 ].

Definition senior_analyzer : DataAnalyzer.t :=
  DataAnalyzer.Make "data/freelancer_earnings_bd.csv" (Some seniors).

(** A chain that starts without history. *)
Definition fresh_chain : AnalysisChain.t :=
  AnalysisChain.Make Sample.mock_analyzer SessionMemory.init.

End Fixtures.


(* ================================================================= *)
(** ** Properties of the session memory *)

Section SessionMemoryFacts.

Import SessionMemory.

Lemma adjust_start_neg (len n : Z) :
  0 < n -> Py.adjust_start len (- n) = Z.max (len - n) 0.
Proof.
  intros Hn. unfold Py.adjust_start.
  destruct (Z.ltb_spec (- n) 0) as [_ | Hge]; [f_equal; lia | lia].
Qed.

(** For a positive [n] the window is the history without its first
    [len - n] entries. *)
Lemma get_history_positive (h : t) (n : Z) :
  0 < n ->
  get_history h n = skipn (List.length h - Z.to_nat n) h.
Proof.
  intros Hn. unfold get_history, Py.slice_from.
  rewrite adjust_start_neg by assumption.
  f_equal. lia.
Qed.

Lemma get_history_positive_length (h : t) (n : Z) :
  0 < n ->
  List.length (get_history h n) = Nat.min (Z.to_nat n) (List.length h).
Proof.
  intros Hn. rewrite get_history_positive by assumption.
  rewrite length_skipn. lia.
Qed.

(** For a positive [n] the history splits into a prefix and the window. *)
Lemma get_history_positive_suffix (h : t) (n : Z) :
  0 < n ->
  (firstn (List.length h - Z.to_nat n) h ++ get_history h n)%list = h.
Proof.
  intros Hn. rewrite get_history_positive by assumption.
  apply firstn_skipn.
Qed.

(** tests/test_session_memory.py, [test_history_limit]: after ten entries
    the window of five starts at the sixth. *)
Example test_history_limit :
  let q i := Entry ("Q" ++ i) ("A" ++ i) in
  let mem :=
    fold_left (fun m i => add m ("Q" ++ i) ("A" ++ i))
              ["0"; "1"; "2"; "3"; "4"; "5"; "6"; "7"; "8"; "9"] init in
  get_history mem 5 = [q "5"; q "6"; q "7"; q "8"; q "9"].
Proof. reflexivity. Qed.

(** Three entries, no window: all three come back. *)
Example get_history_zero_of_three :
  get_history Sample.three_entries 0 = Sample.three_entries
  /\ List.length (get_history Sample.three_entries 0) = 3%nat.
Proof. split; reflexivity. Qed.

(** C3.  [get_history(0)] does not return the last zero entries: the slice
    [history[-0:]] is [history[0:]], the whole history, however long. *)
Theorem get_history_zero_returns_whole_history (h : t) :
  get_history h 0 = h.
Proof.
  unfold get_history, Py.slice_from, Py.adjust_start. simpl.
  rewrite Z.min_l by lia. reflexivity.
Qed.

End SessionMemoryFacts.

(* ================================================================= *)
(** ** Properties of the loader *)

Section LoaderFacts.

Context {pandas : Ops}.

(** C8.  A path that resolves to nothing makes [load] raise
    [DataFileNotFound]; a path that resolves to a regular file which the
    reader accepts makes [load] return the table that was read; a path that
    resolves to a directory exists, so it is handed to the reader, and the
    failure is the [IsADirectoryError] of opening it, not
    [DataFileNotFound]. *)
Theorem load_by_kind_of_path (fs : CsvLoader.filesystem) (path : string) :
  (fs path = None ->
   CsvLoader.load fs path =
     Err (Raise DataFileNotFound ("Файл не найден: " ++ path)))
  /\
  (forall content table,
      fs path = Some (CsvLoader.File content) ->
      read_csv content = Ok table ->
      CsvLoader.load fs path = Ok table)
  /\
  (fs path = Some CsvLoader.Directory ->
   CsvLoader.load fs path =
     Err (Raise IsADirectoryError
            ("[Errno 21] Is a directory: '" ++ path ++ "'"))).
Proof.
  unfold CsvLoader.load, CsvLoader.exists_, CsvLoader.pd_read_csv.
  split; [| split].
  - intros ->. reflexivity.
  - intros content table -> Hread. simpl. exact Hread.
  - intros ->. reflexivity.
Qed.

(** The analyzer is built eagerly: a failure of the loader is the failure
    of the constructor. *)
Lemma init_propagates (loader : string -> result DataFrame) (path : string) (e : exn) :
  loader path = Err e -> DataAnalyzer.init loader path = Err e.
Proof. intros Hload. unfold DataAnalyzer.init. rewrite Hload. reflexivity. Qed.

Lemma init_loaded (loader : string -> result DataFrame) (path : string) (table : DataFrame) :
  loader path = Ok table ->
  DataAnalyzer.init loader path = Ok (DataAnalyzer.Make path (Some table)).
Proof. intros Hload. unfold DataAnalyzer.init. rewrite Hload. reflexivity. Qed.

End LoaderFacts.

Lemma load_by_kind_of_path_witness :
  (Sample.fs "not_exists.csv" = None /\
   CsvLoader.load Sample.fs "not_exists.csv" =
     Err (Raise DataFileNotFound ("Файл не найден: " ++ "not_exists.csv")))
  /\
  (Sample.fs "data/freelancer_earnings_bd.csv"
     = Some (CsvLoader.File (Sample.header ++ AnalysisChain.newline)) /\
   read_csv (Sample.header ++ AnalysisChain.newline) = Ok [] /\
   CsvLoader.load Sample.fs "data/freelancer_earnings_bd.csv" = Ok [])
  /\
  (Sample.fs "data" = Some CsvLoader.Directory /\
   CsvLoader.load Sample.fs "data" =
     Err (Raise IsADirectoryError ("[Errno 21] Is a directory: '" ++ "data" ++ "'"))).
Proof.
  split; [| split].
  - split; [reflexivity |].
    apply (proj1 (load_by_kind_of_path Sample.fs "not_exists.csv")).
    reflexivity.
  - split; [reflexivity | split; [reflexivity |]].
    apply (proj1 (proj2 (load_by_kind_of_path
                           Sample.fs "data/freelancer_earnings_bd.csv"))
                 (Sample.header ++ AnalysisChain.newline) []);
      reflexivity.
  - split; [reflexivity |].
    apply (proj2 (proj2 (load_by_kind_of_path Sample.fs "data"))).
    reflexivity.
Defined.

(** The data directory exists and is not a file: [load] does not report it
    as missing, it fails with the error of opening a directory. *)
Lemma directory_is_not_reported_missing :
  Sample.fs "data" = Some CsvLoader.Directory
  /\ CsvLoader.load Sample.fs "data"
     = Err (Raise IsADirectoryError "[Errno 21] Is a directory: 'data'")
  /\ IsADirectoryError <> DataFileNotFound.
Proof. split; [reflexivity |]. split; [reflexivity | discriminate]. Qed.

(* ================================================================= *)
(** ** Properties of the grouping *)

Section GroupingFacts.

Lemma count_app (xs ys : list float) :
  Pandas.count (xs ++ ys) = Pandas.count xs + Pandas.count ys.
Proof.
  unfold Pandas.count. rewrite filter_app, length_app. lia.
Qed.

Lemma count_singleton (x : float) :
  Pandas.count [x] = if notna x then 1 else 0.
Proof. unfold Pandas.count. simpl. destruct (notna x); reflexivity. Qed.

(** Adding a record to the groups adds it to exactly one group. *)
Lemma add_to_group_total (k : string) (r : Row) (gs : list (string * list Row)) :
  group_total (add_to_group k r gs)
  = group_total gs + (if notna (Earnings_USD r) then 1 else 0).
Proof.
  induction gs as [| [k' rs] gs IH]; simpl.
  - rewrite count_singleton. lia.
  - destruct (String.compare k k'); simpl.
    + rewrite map_app, count_app. simpl map. rewrite count_singleton. lia.
    + rewrite count_singleton. lia.
    + rewrite IH. lia.
Qed.

Lemma count_if_cons {A : Type} (p : A -> bool) (x : A) (l : list A) :
  count_if p (x :: l) = (if p x then 1 else 0) + count_if p l.
Proof.
  unfold count_if. simpl. destruct (p x); cbn [List.length]; lia.
Qed.

Lemma groupby_total_from (key : Row -> option string) (df : DataFrame)
      (acc : list (string * list Row)) :
  group_total
    (fold_left (fun gs r => match key r with
                            | Some k => add_to_group k r gs
                            | None => gs
                            end) df acc)
  = group_total acc
    + count_if (fun r => is_some (key r) && notna (Earnings_USD r)) df.
Proof.
  revert acc. induction df as [| r df IH]; intros acc; simpl fold_left.
  - unfold count_if. simpl. lia.
  - rewrite IH, count_if_cons.
    destruct (key r) as [k |]; simpl.
    + rewrite add_to_group_total. lia.
    + lia.
Qed.

(** The group counts add up to the number of records that have a key and
    an earnings value. *)
Lemma groupby_total (key : Row -> option string) (df : DataFrame) :
  group_total (groupby key df)
  = count_if (fun r => is_some (key r) && notna (Earnings_USD r)) df.
Proof. unfold groupby. rewrite groupby_total_from. reflexivity. Qed.

Lemma count_if_all {A : Type} (p : A -> bool) (l : list A) :
  forallb p l = true -> count_if p l = Z.of_nat (List.length l).
Proof.
  induction l as [| x l IH]; [reflexivity |].
  intros Hall. simpl in Hall. apply andb_true_iff in Hall as [Hx Hl].
  rewrite count_if_cons, Hx, (IH Hl). cbn [List.length]. lia.
Qed.

Lemma count_if_le {A : Type} (p q : A -> bool) (l : list A) :
  (forall x, p x = true -> q x = true) -> count_if p l <= count_if q l.
Proof.
  intros Himp. induction l as [| x l IH].
  - reflexivity.
  - rewrite !count_if_cons.
    destruct (p x) eqn:Hp.
    + rewrite (Himp x Hp). lia.
    + destruct (q x); lia.
Qed.

Lemma filter_filter {A : Type} (p q : A -> bool) (l : list A) :
  filter q (filter p l) = filter (fun x => p x && q x) l.
Proof.
  induction l as [| x l IH]; simpl; [reflexivity |].
  destruct (p x); simpl; [destruct (q x) |]; now rewrite IH.
Qed.

(** No record is in two groups and none with a key is dropped: the groups
    together hold exactly the records that have a key. *)
Lemma add_to_group_members (k : string) (r : Row) (gs : list (string * list Row)) :
  List.length (List.concat (map snd (add_to_group k r gs)))
  = S (List.length (List.concat (map snd gs))).
Proof.
  induction gs as [| [k' rs] gs IH]; simpl; [reflexivity |].
  destruct (String.compare k k'); simpl.
  - rewrite !length_app. simpl. lia.
  - reflexivity.
  - rewrite !length_app, IH. lia.
Qed.

End GroupingFacts.

(* ================================================================= *)
(** ** Properties of the analyzer *)

Section AnalyzerFacts.

Context {pandas : Ops}.

Import DataAnalyzer.

Lemma total_freelancers_payment_entry (rs : list Row) :
  total_freelancers (payment_entry rs) = Pandas.count (map Earnings_USD rs).
Proof. reflexivity. Qed.

Lemma sum_total_freelancers_groups (gs : list (string * list Row)) :
  sum_total_freelancers
    (PDict (map (fun g => (fst g, payment_entry (snd g))) gs))
  = group_total gs.
Proof.
  unfold sum_total_freelancers, group_total.
  induction gs as [| g gs IH]; [reflexivity |].
  cbn [map fold_right snd]. rewrite IH, total_freelancers_payment_entry.
  reflexivity.
Qed.

Lemma payment_entries_have_count (gs : list (string * list Row)) :
  Forall (fun g => exists c, (match snd g with
                              | PDict d => dict_get "total_freelancers" d
                              | _ => None
                              end) = Some (np_int c))
         (map (fun g => (fst g, payment_entry (snd g))) gs).
Proof.
  induction gs as [| g gs IH]; constructor; [| exact IH].
  exists (Pandas.count (map Earnings_USD (snd g))). reflexivity.
Qed.

(** C5.  The [total_freelancers] counts of the payment-method groups add up
    to the number of records that have both a payment method and an
    earnings value; on a table where no record lacks either, that is the
    total record count. *)
Theorem payment_counts_partition (self : DataAnalyzer.t) (table : DataFrame) :
  df self = Some table ->
  exists groups,
    get_payment_method_analysis self = Ok (PDict groups)
    /\ Forall (fun g => exists c, (match snd g with
                                   | PDict d => dict_get "total_freelancers" d
                                   | _ => None
                                   end) = Some (np_int c)) groups
    /\ sum_total_freelancers (PDict groups) = count_if complete table
    /\ (forallb complete table = true ->
        sum_total_freelancers (PDict groups) = Z.of_nat (List.length table)).
Proof.
  intros Hdf. unfold get_payment_method_analysis. rewrite Hdf.
  eexists. split; [reflexivity |].
  split; [apply payment_entries_have_count |].
  assert (Hsum :
    sum_total_freelancers
      (PDict (map (fun g => (fst g, payment_entry (snd g)))
                  (groupby Payment_Method table)))
    = count_if complete table).
  { rewrite sum_total_freelancers_groups. apply groupby_total. }
  split; [exact Hsum |].
  intros Hall. rewrite Hsum. apply count_if_all. exact Hall.
Qed.

Lemma experts_under_100_as_filter (table : DataFrame) :
  experts_under_100_of table
  = filter (fun r => str_eq (Experience_Level r) "Expert"
                     && int_lt (Job_Completed r) 100) table.
Proof. unfold experts_under_100_of, experts_of, select. apply filter_filter. Qed.

Lemma experts_under_100_le (table : DataFrame) :
  Z.of_nat (List.length (experts_under_100_of table))
  <= Z.of_nat (List.length (experts_of table)).
Proof.
  rewrite experts_under_100_as_filter. unfold experts_of, select.
  apply (count_if_le
           (fun r => str_eq (Experience_Level r) "Expert"
                     && int_lt (Job_Completed r) 100)
           (fun r => str_eq (Experience_Level r) "Expert")).
  intros r Hr. apply andb_true_iff in Hr. tauto.
Qed.

(** C4.  [total_experts] counts the records whose experience level is
    "Expert", [experts_under_100_projects] those of them with fewer than 100
    completed jobs, the second never exceeds the first, and with at least one
    expert the percentage is the quotient of the two counts, rounded to a
    float, times 100, rounded to two decimals. *)
Theorem expert_counts_and_percentage (self : DataAnalyzer.t) (table : DataFrame) :
  df self = Some table ->
  let total := count_if (fun r => str_eq (Experience_Level r) "Expert") table in
  let under := count_if (fun r => str_eq (Experience_Level r) "Expert"
                                  && int_lt (Job_Completed r) 100) table in
  under <= total
  /\ (0 < total ->
      get_expert_analysis self =
        Ok (PDict
              [ ("total_experts", PInt total);
                ("experts_under_100_projects", PInt under);
                ("percentage",
                  PFloat (Py.round2 (Py.nearest_float under total * 100)%float));
                ("avg_earnings_under_100",
                  np_float (series_mean (map Earnings_USD (experts_under_100_of table))));
                ("avg_earnings_all_experts",
                  np_float (series_mean (map Earnings_USD (experts_of table)))) ])).
Proof.
  intros Hdf total under.
  assert (Htotal : Z.of_nat (List.length (experts_of table)) = total) by reflexivity.
  assert (Hunder : Z.of_nat (List.length (experts_under_100_of table)) = under).
  { rewrite experts_under_100_as_filter. reflexivity. }
  split.
  - rewrite <- Htotal, <- Hunder. apply experts_under_100_le.
  - intros Hpos. unfold get_expert_analysis. rewrite Hdf.
    cbv zeta. rewrite Htotal, Hunder.
    unfold percentage, Py.int_truediv.
    destruct (Z.eqb_spec total 0) as [Hz | _]; [lia |].
    destruct (Z.ltb_spec total 0) as [Hneg | _]; [lia |].
    reflexivity.
Qed.

Lemma experts_of_none (table : DataFrame) :
  (forall r, In r table -> Experience_Level r <> Some "Expert") ->
  experts_of table = [].
Proof.
  unfold experts_of, select.
  induction table as [| r table IH]; intros Hnone; [reflexivity |].
  simpl. destruct (str_eq (Experience_Level r) "Expert") eqn:Hr.
  - exfalso. apply (Hnone r); [left; reflexivity |].
    unfold str_eq in Hr. destruct (Experience_Level r) as [v |]; [| discriminate].
    apply String.eqb_eq in Hr. now subst.
  - apply IH. intros r' Hin. apply Hnone. right. exact Hin.
Qed.

(** C10.  On a table that has records but no expert, the percentage
    divides by zero and [get_expert_analysis] raises [ZeroDivisionError]. *)
Theorem expert_analysis_without_experts (self : DataAnalyzer.t) (table : DataFrame) :
  df self = Some table ->
  table <> [] ->
  (forall r, In r table -> Experience_Level r <> Some "Expert") ->
  get_expert_analysis self = Err (Raise ZeroDivisionError "division by zero").
Proof.
  intros Hdf _ Hnone.
  unfold get_expert_analysis. rewrite Hdf.
  unfold experts_under_100_of. rewrite (experts_of_none table Hnone).
  reflexivity.
Qed.

(** C1.  Without a table ([self.df is None]) each of the five operations
    returns the empty mapping.  On a table without records the two
    groupings still return the empty mapping, while [get_data_info] and
    [get_crypto_vs_other_analysis] return a record of statistics, with
    [total_records] 0 and both counts 0. *)
Theorem no_table_guard (path : string) :
  let unloaded := DataAnalyzer.Make path None in
  let empty := DataAnalyzer.Make path (Some []) in
  (get_data_info unloaded = Ok empty_dict
   /\ get_payment_method_analysis unloaded = Ok empty_dict
   /\ get_region_analysis unloaded = Ok empty_dict
   /\ get_expert_analysis unloaded = Ok empty_dict
   /\ get_crypto_vs_other_analysis unloaded = Ok empty_dict)
  /\ get_payment_method_analysis empty = Ok empty_dict
  /\ get_region_analysis empty = Ok empty_dict
  /\ (exists info, get_data_info empty = Ok info
                   /\ has_key "total_records" info = true
                   /\ info <> empty_dict)
  /\ (exists stats, get_crypto_vs_other_analysis empty = Ok stats
                    /\ has_key "crypto_stats" stats = true)
  /\ lookup1 "total_records" (get_data_info empty) = Some (PInt 0)
  /\ lookup2 "crypto_stats" "count" (get_crypto_vs_other_analysis empty)
     = Some (PInt 0)
  /\ lookup2 "other_stats" "count" (get_crypto_vs_other_analysis empty)
     = Some (PInt 0).
Proof.
  cbv zeta. repeat split.
  - eexists. repeat split. discriminate.
  - eexists. repeat split.
Qed.

End AnalyzerFacts.

(** *** The analyzer on the tables of the test suite *)

Section AnalyzerExamples.

Import DataAnalyzer.

(** [test_payment_method_analysis] *)
Example test_payment_method_analysis :
  lookup2 "Crypto" "avg_earnings" (get_payment_method_analysis Sample.mock_analyzer)
  = Some (np_float 1100).
Proof. vm_compute. reflexivity. Qed.

(** [test_region_analysis] *)
Example test_region_analysis :
  lookup2 "EU" "total_freelancers" (get_region_analysis Sample.mock_analyzer)
  = Some (np_int 2).
Proof. vm_compute. reflexivity. Qed.

(** [test_expert_analysis], with the percentage of the three experts. *)
Example test_expert_analysis :
  lookup1 "total_experts" (get_expert_analysis Sample.mock_analyzer) = Some (PInt 3)
  /\ lookup1 "experts_under_100_projects" (get_expert_analysis Sample.mock_analyzer)
     = Some (PInt 2)
  /\ lookup1 "percentage" (get_expert_analysis Sample.mock_analyzer)
     = Some (PFloat 66.67).
Proof. vm_compute. repeat split. Qed.

(** [test_crypto_vs_other_analysis] *)
Example test_crypto_vs_other_analysis :
  lookup2 "crypto_stats" "count" (get_crypto_vs_other_analysis Sample.mock_analyzer)
  = Some (PInt 2).
Proof. vm_compute. reflexivity. Qed.

(** [test_data_info] *)
Example test_data_info :
  lookup1 "total_records" (get_data_info Sample.mock_analyzer) = Some (PInt 4).
Proof. vm_compute. reflexivity. Qed.

End AnalyzerExamples.

Lemma payment_counts_partition_witness :
  DataAnalyzer.df Sample.mock_analyzer = Some Sample.MOCK_DATA
  /\ forallb complete Sample.MOCK_DATA = true
  /\ exists groups,
       DataAnalyzer.get_payment_method_analysis Sample.mock_analyzer = Ok (PDict groups)
       /\ DataAnalyzer.sum_total_freelancers (PDict groups) = 4.
Proof.
  split; [reflexivity |]. split; [reflexivity |].
  destruct (payment_counts_partition Sample.mock_analyzer Sample.MOCK_DATA eq_refl)
    as (groups & Hres & _ & _ & Hall).
  exists groups. split; [exact Hres |]. apply Hall. reflexivity.
Defined.

(** With a record that lacks its payment method and one that lacks its
    earnings the counts add up to 0, not to the 2 records of the table. *)
Lemma missing_cells_are_not_counted :
  List.length Sample.with_missing_cells = 2%nat
  /\ Py.bind (DataAnalyzer.get_payment_method_analysis Sample.missing_cells_analyzer)
             (fun results => Ok (DataAnalyzer.sum_total_freelancers results))
     = Ok 0.
Proof. split; vm_compute; reflexivity. Qed.

Lemma expert_counts_and_percentage_witness :
  DataAnalyzer.df Sample.mock_analyzer = Some Sample.MOCK_DATA
  /\ 0 < count_if (fun r => str_eq (Experience_Level r) "Expert") Sample.MOCK_DATA
  /\ lookup1 "percentage" (DataAnalyzer.get_expert_analysis Sample.mock_analyzer)
     = Some (PFloat 66.67).
Proof.
  split; [reflexivity |]. split; [reflexivity |].
  rewrite (proj2 (expert_counts_and_percentage
                    Sample.mock_analyzer Sample.MOCK_DATA eq_refl) eq_refl).
  vm_compute. reflexivity.
Defined.

(** With 23 of 160 experts under 100 jobs the code computes
    [round((23 / 160) * 100, 2) = round(14.374999999999998, 2) = 14.37],
    while [round(100 * 23 / 160, 2) = round(14.375, 2) = 14.38]. *)
Lemma percentage_23_of_160 :
  lookup1 "total_experts" (DataAnalyzer.get_expert_analysis Sample.experts_analyzer)
  = Some (PInt 160)
  /\ lookup1 "experts_under_100_projects"
             (DataAnalyzer.get_expert_analysis Sample.experts_analyzer)
     = Some (PInt 23)
  /\ lookup1 "percentage" (DataAnalyzer.get_expert_analysis Sample.experts_analyzer)
     = Some (PFloat 14.37)
  /\ DataAnalyzer.spec_percentage 23 160 = Ok 14.38%float
  /\ (14.37 =? 14.38)%float = false.
Proof. repeat split; vm_compute; reflexivity. Qed.

Lemma expert_analysis_without_experts_witness :
  DataAnalyzer.df Sample.no_expert_analyzer = Some Sample.no_expert
  /\ Sample.no_expert <> []
  /\ (forall r, In r Sample.no_expert -> Experience_Level r <> Some "Expert")
  /\ DataAnalyzer.get_expert_analysis Sample.no_expert_analyzer
     = Err (Raise ZeroDivisionError "division by zero").
Proof.
  assert (Hnone : forall r, In r Sample.no_expert ->
                            Experience_Level r <> Some "Expert").
  { intros r [<- | []]. simpl. discriminate. }
  split; [reflexivity |]. split; [discriminate |]. split; [exact Hnone |].
  apply (expert_analysis_without_experts Sample.no_expert_analyzer Sample.no_expert).
  - reflexivity.
  - discriminate.
  - exact Hnone.
Defined.

(** On a table without records [get_data_info] returns a record of five
    entries and [get_expert_analysis] divides zero by zero. *)
Lemma empty_table_is_not_guarded :
  DataAnalyzer.df Sample.empty_analyzer = Some []
  /\ DataAnalyzer.get_data_info Sample.empty_analyzer <> Ok empty_dict
  /\ lookup1 "total_records" (DataAnalyzer.get_data_info Sample.empty_analyzer)
     = Some (PInt 0)
  /\ DataAnalyzer.get_expert_analysis Sample.empty_analyzer
     = Err (Raise ZeroDivisionError "division by zero").
Proof.
  split; [reflexivity |]. split; [discriminate |]. split; reflexivity.
Qed.

(* ================================================================= *)
(** ** Properties of the encoder *)

Section EncoderFacts.

Import Json.

(** Induction on Python values, with the elements of a list and the values
    of a dictionary covered by the hypothesis. *)
Lemma pyobj_nested_ind (P : pyobj -> Prop) :
  P PNone ->
  (forall b, P (PBool b)) ->
  (forall z, P (PInt z)) ->
  (forall f, P (PFloat f)) ->
  (forall s, P (PStr s)) ->
  (forall l, Forall P l -> P (PList l)) ->
  (forall d, Forall (fun kv => P (snd kv)) d -> P (PDict d)) ->
  (forall x, P (PLib x)) ->
  forall o, P o.
Proof.
  intros HNone HBool HInt HFloat HStr HList HDict HLib.
  fix IH 1. intros [ | b | z | f | s | l | d | x ].
  - exact HNone.
  - apply HBool.
  - apply HInt.
  - apply HFloat.
  - apply HStr.
  - apply HList. induction l as [| y l IHl]; constructor; [apply IH | exact IHl].
  - apply HDict. induction d as [| [k v] d IHd]; constructor; [apply IH | exact IHd].
  - apply HLib.
Qed.

Variable hook : libobj -> result json.

Lemma encode_with_list (l : list pyobj) :
  encode_with hook (PList l)
  = Py.bind (Py.traverse (encode_with hook) l) (fun js => Ok (JArr js)).
Proof.
  cbn [encode_with]. f_equal.
  induction l as [| x l IH]; [reflexivity |].
  cbn [Py.traverse]. rewrite IH.
  destruct (encode_with hook x); [| reflexivity].
  cbn [Py.bind]. destruct (Py.traverse (encode_with hook) l); reflexivity.
Qed.

Lemma encode_with_dict (d : list (string * pyobj)) :
  encode_with hook (PDict d)
  = Py.bind
      (Py.traverse (fun kv => Py.bind (encode_with hook (snd kv))
                                      (fun j => Ok (fst kv, j))) d)
      (fun js => Ok (JObj js)).
Proof.
  cbn [encode_with]. f_equal.
  induction d as [| [k v] d IH]; [reflexivity |].
  cbn [Py.traverse fst snd]. rewrite IH.
  destruct (encode_with hook v); [| reflexivity].
  cbn [Py.bind].
  destruct (Py.traverse _ d); reflexivity.
Qed.

End EncoderFacts.

Section TraverseFacts.

Context {A B C : Type}.

Lemma traverse_map (f : A -> result C) (g : B -> result C) (h : A -> B)
      (l : list A) :
  Forall (fun x => f x = g (h x)) l ->
  Py.traverse f l = Py.traverse g (map h l).
Proof.
  induction 1 as [| x l Hx _ IH]; [reflexivity |].
  cbn [Py.traverse map]. now rewrite Hx, IH.
Qed.

Lemma traverse_ok (f : A -> result C) (l : list A) :
  Forall (fun x => exists y, f x = Ok y) l ->
  exists ys, Py.traverse f l = Ok ys.
Proof.
  induction 1 as [| x l [y Hy] _ [ys Hys]].
  - exists []. reflexivity.
  - exists (y :: ys). cbn [Py.traverse]. now rewrite Hy, Hys.
Qed.

End TraverseFacts.

Section NormalizationFacts.

Import Json.

Lemma encode_list (l : list pyobj) :
  encode (PList l) = Py.bind (Py.traverse encode l) (fun js => Ok (JArr js)).
Proof. apply encode_with_list. Qed.

Lemma standard_encode_list (l : list pyobj) :
  standard_encode (PList l)
  = Py.bind (Py.traverse standard_encode l) (fun js => Ok (JArr js)).
Proof. apply encode_with_list. Qed.

Lemma encode_dict (d : list (string * pyobj)) :
  encode (PDict d)
  = Py.bind
      (Py.traverse (fun kv => Py.bind (encode (snd kv)) (fun j => Ok (fst kv, j))) d)
      (fun js => Ok (JObj js)).
Proof. apply encode_with_dict. Qed.

Lemma standard_encode_dict (d : list (string * pyobj)) :
  standard_encode (PDict d)
  = Py.bind
      (Py.traverse (fun kv => Py.bind (standard_encode (snd kv))
                                      (fun j => Ok (fst kv, j))) d)
      (fun js => Ok (JObj js)).
Proof. apply encode_with_dict. Qed.

Lemma standard_encode_ints (zs : list Z) :
  standard_encode (PList (map PInt zs)) = Ok (JArr (map JInt zs)).
Proof.
  rewrite standard_encode_list.
  assert (Hitems : Py.traverse standard_encode (map PInt zs) = Ok (map JInt zs)).
  { induction zs as [| z zs IH]; [reflexivity |].
    cbn [map Py.traverse]. now rewrite IH. }
  now rewrite Hitems.
Qed.

Lemma standard_encode_floats (fs : list float) :
  standard_encode (PList (map PFloat fs)) = Ok (JArr (map JFloat fs)).
Proof.
  rewrite standard_encode_list.
  assert (Hitems : Py.traverse standard_encode (map PFloat fs) = Ok (map JFloat fs)).
  { induction fs as [| f fs IH]; [reflexivity |].
    cbn [map Py.traverse]. now rewrite IH. }
  now rewrite Hitems.
Qed.

Lemma standard_encode_bools (bs : list bool) :
  standard_encode (PList (map PBool bs)) = Ok (JArr (map JBool bs)).
Proof.
  rewrite standard_encode_list.
  assert (Hitems : Py.traverse standard_encode (map PBool bs) = Ok (map JBool bs)).
  { induction bs as [| b bs IH]; [reflexivity |].
    cbn [map Py.traverse]. now rewrite IH. }
  now rewrite Hitems.
Qed.

Lemma plain_scalars {X : Type} (inj : X -> pyobj) (xs : list X) :
  (forall x, plain (inj x) = true) -> plain (PList (map inj xs)) = true.
Proof.
  intros Hinj. cbn [plain].
  induction xs as [| x xs IH]; [reflexivity |].
  cbn [map forallb]. now rewrite Hinj, IH.
Qed.

(** What the encoder writes for a library object is what the standard
    encoder writes for its plain counterpart. *)
Lemma encode_lib (x : libobj) :
  x <> PdInt64Dtype ->
  encode (PLib x) = standard_encode (plain_of x)
  /\ plain (plain_of x) = true
  /\ exists j, encode (PLib x) = Ok j.
Proof.
  intros Hx. destruct x as [z | f | f | b | a | name | | ]; try congruence.
  - repeat split. eexists. reflexivity.
  - repeat split. eexists. reflexivity.
  - repeat split. eexists. reflexivity.
  - repeat split. eexists. reflexivity.
  - destruct a as [zs | fs | bs]; (split; [reflexivity |]); split.
    + now apply plain_scalars.
    + eexists. apply standard_encode_ints.
    + now apply plain_scalars.
    + eexists. apply standard_encode_floats.
    + now apply plain_scalars.
    + eexists. apply standard_encode_bools.
  - repeat split. eexists. reflexivity.
  - repeat split. eexists. reflexivity.
Qed.

(** On a value without [Int64Dtype] objects the encoder succeeds, and it
    writes the document that the standard encoder writes for the
    normalized value, in which no library object is left. *)
Lemma encode_normalizes (o : pyobj) :
  encodable o = true ->
  encode o = standard_encode (normalize o)
  /\ plain (normalize o) = true
  /\ exists j, encode o = Ok j.
Proof.
  induction o as [ | b | z | f | s | l IH | d IH | x ] using pyobj_nested_ind;
    intros Henc; try (repeat split; eexists; reflexivity).
  - (* lists *)
    cbn [encodable] in Henc. rewrite forallb_forall in Henc.
    rewrite Forall_forall in IH.
    assert (Hall : Forall (fun x => encode x = standard_encode (normalize x)
                                    /\ plain (normalize x) = true
                                    /\ exists j, encode x = Ok j) l).
    { apply Forall_forall. intros x Hin. apply IH; auto. }
    clear IH Henc. cbn [normalize].
    rewrite encode_list, standard_encode_list.
    assert (Heq : Py.traverse encode l
                  = Py.traverse standard_encode (map normalize l)).
    { apply traverse_map. eapply Forall_impl; [| exact Hall]. intros x Hx. apply Hx. }
    split; [now rewrite Heq |]. split.
    + cbn [plain]. rewrite forallb_forall. intros y Hy.
      apply in_map_iff in Hy as (x & <- & Hin).
      rewrite Forall_forall in Hall. apply (Hall x Hin).
    + destruct (traverse_ok encode l) as [js Hjs].
      { eapply Forall_impl; [| exact Hall]. intros x Hx. apply Hx. }
      rewrite Hjs. eexists. reflexivity.
  - (* dictionaries *)
    cbn [encodable] in Henc. rewrite forallb_forall in Henc.
    rewrite Forall_forall in IH.
    assert (Hall : Forall (fun kv => encode (snd kv)
                                     = standard_encode (normalize (snd kv))
                                     /\ plain (normalize (snd kv)) = true
                                     /\ exists j, encode (snd kv) = Ok j) d).
    { apply Forall_forall. intros kv Hin. apply IH; auto. }
    clear IH Henc. cbn [normalize].
    rewrite encode_dict, standard_encode_dict.
    assert (Heq : Py.traverse (fun kv => Py.bind (encode (snd kv))
                                           (fun j => Ok (fst kv, j))) d
                  = Py.traverse (fun kv => Py.bind (standard_encode (snd kv))
                                             (fun j => Ok (fst kv, j)))
                                (map (fun kv => (fst kv, normalize (snd kv))) d)).
    { apply traverse_map. eapply Forall_impl; [| exact Hall].
      intros kv (Hkv & _). cbn [fst snd]. now rewrite Hkv. }
    split; [now rewrite Heq |]. split.
    + cbn [plain]. rewrite forallb_forall. intros y Hy.
      apply in_map_iff in Hy as (kv & <- & Hin).
      rewrite Forall_forall in Hall. apply (Hall kv Hin).
    + destruct (traverse_ok (fun kv => Py.bind (encode (snd kv))
                                         (fun j => Ok (fst kv, j))) d)
        as [js Hjs].
      { eapply Forall_impl; [| exact Hall].
        intros kv (_ & _ & j & Hj). rewrite Hj. eexists. reflexivity. }
      rewrite Hjs. eexists. reflexivity.
  - (* library objects *)
    apply encode_lib. intros ->. discriminate.
Qed.

End NormalizationFacts.

(* ================================================================= *)
(** ** Serializing the results of the analyzer *)

Section ResultFacts.

Context {pandas : Ops}.

Import DataAnalyzer Json.

Lemma encodable_entries {X : Type} (entry : X -> pyobj) (key : X -> string)
      (xs : list X) :
  (forall x, encodable (entry x) = true) ->
  encodable (PDict (map (fun x => (key x, entry x)) xs)) = true.
Proof.
  intros Hentry. cbn [encodable].
  induction xs as [| x xs IH]; [reflexivity |].
  cbn [map forallb snd]. now rewrite Hentry, IH.
Qed.

Lemma encodable_record (as_int : bool) (r : Row) :
  encodable (record_dict as_int r) = true.
Proof.
  unfold record_dict, str_cell, int_cell.
  destruct (Payment_Method r), (Client_Region r), (Experience_Level r),
    (Job_Completed r), as_int; reflexivity.
Qed.

Lemma encodable_head_records (table : DataFrame) :
  forallb encodable (head_records table) = true.
Proof.
  unfold head_records. apply forallb_forall. intros o Ho.
  apply in_map_iff in Ho as (r & <- & _). apply encodable_record.
Qed.

Lemma encodable_data_info (self : DataAnalyzer.t) (results : pyobj) :
  get_data_info self = Ok results -> encodable results = true.
Proof.
  unfold get_data_info. destruct (df self) as [table |]; intros [= <-].
  - cbn [encodable forallb snd]. rewrite encodable_head_records.
    unfold dtypes. destruct (job_completed_is_int table); reflexivity.
  - reflexivity.
Qed.

Lemma encodable_payment (self : DataAnalyzer.t) (results : pyobj) :
  get_payment_method_analysis self = Ok results -> encodable results = true.
Proof.
  unfold get_payment_method_analysis. destruct (df self) as [table |]; intros [= <-].
  - apply (encodable_entries (fun g => payment_entry (snd g)) fst). reflexivity.
  - reflexivity.
Qed.

Lemma encodable_region (self : DataAnalyzer.t) (results : pyobj) :
  get_region_analysis self = Ok results -> encodable results = true.
Proof.
  unfold get_region_analysis. destruct (df self) as [table |]; intros [= <-].
  - apply (encodable_entries (fun g => region_entry (snd g)) fst). reflexivity.
  - reflexivity.
Qed.

Lemma encodable_expert (self : DataAnalyzer.t) (results : pyobj) :
  get_expert_analysis self = Ok results -> encodable results = true.
Proof.
  unfold get_expert_analysis. destruct (df self) as [table |].
  - destruct (percentage _ _) as [pct | e]; cbn [Py.bind]; intros [= <-].
    reflexivity.
  - intros [= <-]. reflexivity.
Qed.

Lemma encodable_crypto (self : DataAnalyzer.t) (results : pyobj) :
  get_crypto_vs_other_analysis self = Ok results -> encodable results = true.
Proof.
  unfold get_crypto_vs_other_analysis.
  destruct (df self) as [table |]; intros [= <-]; reflexivity.
Qed.

Context {llm : AnalysisChain.Services}.

(** C9.  Whatever one of the five operations returns is serialized without
    a failure, and the document written is the one the standard encoder
    writes for the result with every numpy integer, float, boolean and array
    replaced by the plain integer, float, boolean and list; no library
    object is left in it. *)
Theorem analysis_results_serialize
        (operation : DataAnalyzer.t -> result pyobj)
        (self : DataAnalyzer.t) (results : pyobj) :
  In operation [ get_data_info; get_payment_method_analysis; get_region_analysis;
                 get_expert_analysis; get_crypto_vs_other_analysis ] ->
  operation self = Ok results ->
  exists document,
    encode results = Ok document
    /\ AnalysisChain.dumps results = Ok (AnalysisChain.json_text document)
    /\ standard_encode (normalize results) = Ok document
    /\ plain (normalize results) = true.
Proof.
  intros Hop Hres.
  assert (Henc : encodable results = true).
  { cbn [In] in Hop.
    destruct Hop as [<- | [<- | [<- | [<- | [<- | []]]]]].
    - now apply (encodable_data_info self).
    - now apply (encodable_payment self).
    - now apply (encodable_region self).
    - now apply (encodable_expert self).
    - now apply (encodable_crypto self). }
  destruct (encode_normalizes results Henc) as (Hnorm & Hplain & document & Hdoc).
  exists document. repeat split.
  - exact Hdoc.
  - unfold AnalysisChain.dumps. now rewrite Hdoc.
  - now rewrite <- Hnorm.
  - exact Hplain.
Qed.

(** What the encoder writes for the single library objects. *)
Lemma encode_numpy_scalars :
  (forall z, encode (PLib (NpInt z)) = Ok (JInt z))
  /\ (forall f, encode (PLib (NpFloat f)) = Ok (JFloat f))
  /\ (forall f, encode (PLib (NpFloat32 f)) = Ok (JFloat f))
  /\ (forall b, encode (PLib (NpBool b)) = Ok (JBool b))
  /\ (forall zs, encode (PLib (NpArray (ArrInt zs))) = Ok (JArr (map JInt zs)))
  /\ (forall fs, encode (PLib (NpArray (ArrFloat fs))) = Ok (JArr (map JFloat fs)))
  /\ (forall bs, encode (PLib (NpArray (ArrBool bs))) = Ok (JArr (map JBool bs)))
  /\ encode (PLib PdNA) = Ok JNull
  /\ (forall name, encode (PLib (NpDtype name)) = Ok (JStr name)).
Proof.
  repeat split; intros; try reflexivity.
  - apply standard_encode_ints.
  - apply standard_encode_floats.
  - apply standard_encode_bools.
Qed.

(** An [Int64Dtype] object makes [default] raise, since [int(obj)] does. *)
Lemma encode_int64dtype_raises :
  exists e, encode (PList [PLib PdInt64Dtype]) = Err e /\ cls e = TypeError.
Proof. eexists. split; reflexivity. Qed.

End ResultFacts.

Lemma analysis_results_serialize_witness :
  In DataAnalyzer.get_payment_method_analysis
     [ DataAnalyzer.get_data_info; DataAnalyzer.get_payment_method_analysis;
       DataAnalyzer.get_region_analysis; DataAnalyzer.get_expert_analysis;
       DataAnalyzer.get_crypto_vs_other_analysis ]
  /\ DataAnalyzer.get_payment_method_analysis Sample.mock_analyzer
     = Ok Sample.mock_payment_results
  /\ exists document,
       Json.encode Sample.mock_payment_results = Ok document
       /\ AnalysisChain.dumps Sample.mock_payment_results
          = Ok (AnalysisChain.json_text document)
       /\ Json.standard_encode (Json.normalize Sample.mock_payment_results)
          = Ok document
       /\ Json.plain (Json.normalize Sample.mock_payment_results) = true.
Proof.
  assert (Hin : In DataAnalyzer.get_payment_method_analysis
     [ DataAnalyzer.get_data_info; DataAnalyzer.get_payment_method_analysis;
       DataAnalyzer.get_region_analysis; DataAnalyzer.get_expert_analysis;
       DataAnalyzer.get_crypto_vs_other_analysis ]).
  { right. left. reflexivity. }
  assert (Hres : DataAnalyzer.get_payment_method_analysis Sample.mock_analyzer
                 = Ok Sample.mock_payment_results).
  { vm_compute. reflexivity. }
  split; [exact Hin |]. split; [exact Hres |].
  exact (analysis_results_serialize
           DataAnalyzer.get_payment_method_analysis
           Sample.mock_analyzer Sample.mock_payment_results Hin Hres).
Defined.

(* ================================================================= *)
(** ** Properties of the analysis chain *)

Section ChainFacts.

Context {pandas : Ops}.

Import AnalysisChain.

Lemma get_data_info_returns (a : DataAnalyzer.t) :
  exists info, DataAnalyzer.get_data_info a = Ok info.
Proof.
  unfold DataAnalyzer.get_data_info.
  destruct (DataAnalyzer.df a); eexists; reflexivity.
Qed.

(** The [try] block fails exactly when the operation it invokes fails. *)
Lemma dispatch_raises (self : AnalysisChain.t) (label : string) (e : exn) :
  dispatch self label = Err e <-> operation_for label (data_analyzer self) = Err e.
Proof.
  unfold dispatch, operation_for.
  repeat match goal with
         | |- context [ if String.eqb ?a ?b then _ else _ ] =>
             destruct (String.eqb a b); [reflexivity |]
         end.
  destruct (DataAnalyzer.get_data_info (data_analyzer self)) as [info | e'];
    cbn [Py.bind]; split; congruence.
Qed.

Lemma get_analysis_data_catches
      (self : AnalysisChain.t) (label question : string) (e : exn) :
  operation_for label (data_analyzer self) = Err e ->
  _get_analysis_data self label question
  = Ok (PDict [ ("error", PStr (analysis_error_prefix ++ str e)) ]).
Proof.
  intros He. apply dispatch_raises in He.
  unfold _get_analysis_data. rewrite He. reflexivity.
Qed.


(** C7.  A label outside the five known ones yields the fallback payload:
    the fixed message and the general dataset information. *)
Theorem unknown_label_fallback
        (self : AnalysisChain.t) (label question : string) :
  label <> "payment_method" ->
  label <> "region" ->
  label <> "expert" ->
  label <> "crypto_comparison" ->
  label <> "general_info" ->
  exists info,
    DataAnalyzer.get_data_info (data_analyzer self) = Ok info
    /\ _get_analysis_data self label question
       = Ok (PDict [ ("message", PStr fallback_message);
                     ("general_stats", info) ]).
Proof.
  intros H1 H2 H3 H4 H5.
  destruct (get_data_info_returns (data_analyzer self)) as [info Hinfo].
  exists info. split; [exact Hinfo |].
  unfold _get_analysis_data, dispatch.
  apply String.eqb_neq in H1, H2, H3, H4, H5.
  rewrite H1, H2, H3, H4, H5, Hinfo. reflexivity.
Qed.

Context {llm : Services}.

Lemma error_prefix_is_prefix (s : string) :
  String.prefix error_prefix (error_prefix ++ s) = true.
Proof.
  generalize error_prefix as p. induction p as [| c p IH]; simpl.
  - destruct s; reflexivity.
  - destruct (ascii_dec c c) as [_ | Hc]; [exact IH | congruence].
Qed.

Lemma dumps_error_payload (message : string) :
  dumps (PDict [ ("error", PStr message) ])
  = Ok (json_text (Json.JObj [ ("error", Json.JStr message) ])).
Proof. reflexivity. Qed.

(** C2.  [analyze_question] always returns an answer.  An exception thrown
    by the classifier, by the serialization of the analysis result or by the
    interpreter is turned into the answer that starts with the fixed prefix,
    and the memory is left as it was.  An exception thrown by the analyzer
    operation does not reach this handler: the dispatcher has turned it into
    an error payload, which is serialized and handed to the interpreter. *)
Theorem analyze_question_never_raises (self : AnalysisChain.t) (question : string) :
  (exists answer self', analyze_question self question = Ok (answer, self'))
  /\ (forall e,
         thrown_in self question e ->
         analyze_question self question = Ok (error_prefix ++ str e, self)
         /\ String.prefix error_prefix (error_prefix ++ str e) = true)
  /\ (forall raw e response,
         classification_chain question = Ok raw ->
         operation_for (Py.strip raw) (data_analyzer self) = Err e ->
         interpretation_chain
           (PromptVars question
              (json_text
                 (Json.JObj [ ("error", Json.JStr (analysis_error_prefix ++ str e)) ]))
              (let context :=
                 context_of (SessionMemory.get_history_default (memory self)) in
               if String.eqb context "" then None else Some context))
         = Ok response ->
         analyze_question self question
         = Ok (response,
               Make (data_analyzer self)
                    (SessionMemory.add (memory self) question response))).
Proof.
  split; [| split].
  - unfold analyze_question.
    destruct (analyze_question_try self question) as [[answer self'] | e];
      eexists; eexists; reflexivity.
  - intros e Hthrown. split; [| apply error_prefix_is_prefix].
    unfold analyze_question, analyze_question_try.
    destruct Hthrown as [Hc | raw results Hc Ha Hd | raw results text Hc Ha Hd Hi].
    + rewrite Hc. reflexivity.
    + rewrite Hc. cbn [Py.bind]. rewrite Ha. cbn [Py.bind]. rewrite Hd. reflexivity.
    + rewrite Hc. cbn [Py.bind]. rewrite Ha. cbn [Py.bind]. rewrite Hd.
      cbn [Py.bind]. cbv zeta in Hi. rewrite Hi. reflexivity.
  - intros raw e response Hc Hop Hi.
    unfold analyze_question, analyze_question_try.
    rewrite Hc. cbn [Py.bind].
    rewrite (get_analysis_data_catches self (Py.strip raw) question e Hop).
    cbn [Py.bind]. rewrite dumps_error_payload. cbn [Py.bind].
    cbv zeta in Hi. rewrite Hi. reflexivity.
Qed.

End ChainFacts.


Lemma unknown_label_fallback_witness :
  "other" <> "payment_method"
  /\ "other" <> "region"
  /\ "other" <> "expert"
  /\ "other" <> "crypto_comparison"
  /\ "other" <> "general_info"
  /\ exists info,
       DataAnalyzer.get_data_info
         (AnalysisChain.data_analyzer Sample.no_expert_chain) = Ok info
       /\ AnalysisChain._get_analysis_data Sample.no_expert_chain "other" "Why?"
          = Ok (PDict [ ("message", PStr AnalysisChain.fallback_message);
                        ("general_stats", info) ]).
Proof.
  repeat (split; [discriminate |]).
  apply (unknown_label_fallback Sample.no_expert_chain "other" "Why?");
    discriminate.
Defined.

Lemma analyze_question_never_raises_witness :
  @AnalysisChain.thrown_in Sample.ops Sample.services_down
    Sample.no_expert_chain "How many experts?"
    (Raise RuntimeError "Connection error.")
  /\ @AnalysisChain.analyze_question Sample.ops Sample.services_down
       Sample.no_expert_chain "How many experts?"
     = Ok (AnalysisChain.error_prefix ++ "Connection error.", Sample.no_expert_chain).
Proof.
  assert (Hthrown : @AnalysisChain.thrown_in Sample.ops Sample.services_down
                      Sample.no_expert_chain "How many experts?"
                      (Raise RuntimeError "Connection error.")).
  { apply AnalysisChain.in_classification. reflexivity. }
  split; [exact Hthrown |].
  exact (proj1 (proj1 (proj2 (@analyze_question_never_raises
                                Sample.ops Sample.services_down
                                Sample.no_expert_chain "How many experts?"))
                      (Raise RuntimeError "Connection error.") Hthrown)).
Defined.

(** The classifier answers "expert", the table has no expert, so the
    analyzer operation raises [ZeroDivisionError]; the answer is the
    interpreter's text and does not start with the error prefix. *)
Lemma analysis_exception_is_narrated :
  AnalysisChain.classification_chain "How many experts?"
  = Ok (" expert" ++ AnalysisChain.newline)
  /\ DataAnalyzer.get_expert_analysis
       (AnalysisChain.data_analyzer Sample.no_expert_chain)
     = Err (Raise ZeroDivisionError "division by zero")
  /\ AnalysisChain.analyze_question Sample.no_expert_chain "How many experts?"
     = Ok ("No experts were found.",
           AnalysisChain.Make Sample.no_expert_analyzer
             (SessionMemory.add Sample.three_entries
                "How many experts?" "No experts were found."))
  /\ String.prefix AnalysisChain.error_prefix "No experts were found." = false.
Proof. repeat split; vm_compute; reflexivity. Qed.

(* ================================================================= *)
(** ** Further properties of the session memory *)

Section SessionMemoryWindow.

Import SessionMemory.

(** X1.  For a positive [n] the history is some older entries followed by
    the window that [get_history] returns, and the window holds [n] entries
    or, when there are fewer, all of them. *)
Theorem get_history_last_entries (h : t) (n : Z) :
  0 < n ->
  (exists older, h = (older ++ get_history h n)%list)
  /\ List.length (get_history h n) = Nat.min (Z.to_nat n) (List.length h).
Proof.
  intros Hn. split.
  - exists (firstn (List.length h - Z.to_nat n) h).
    symmetry. now apply get_history_positive_suffix.
  - now apply get_history_positive_length.
Qed.

Lemma skipn_snoc {A : Type} (l : list A) (x : A) (k : nat) :
  (k <= List.length l)%nat -> skipn k (l ++ [x]) = (skipn k l ++ [x])%list.
Proof.
  intros Hk. rewrite skipn_app.
  replace (k - List.length l)%nat with 0%nat by lia. reflexivity.
Qed.

(** X2.  After [add] the window ends with the entry just added; in front of
    it come the entries that a window of [n - 1] showed before, and none when
    [n] is 1. *)
Theorem get_history_after_add (h : t) (q a : string) (n : Z) :
  0 < n ->
  get_history (add h q a) n
  = ((if n =? 1 then [] else get_history h (n - 1)) ++ [Entry q a])%list.
Proof.
  intros Hn. rewrite get_history_positive by assumption.
  unfold add. rewrite length_app. cbn [List.length].
  rewrite skipn_snoc by lia. f_equal.
  destruct (Z.eqb_spec n 1) as [-> | Hneq].
  - replace (List.length h + 1 - Z.to_nat 1)%nat with (List.length h) by lia.
    apply skipn_all.
  - rewrite get_history_positive by lia. f_equal. lia.
Qed.

(** X3.  A negative [n] is not refused: [history[-n:]] then starts at the
    index [-n], so the oldest [-n] entries are dropped and the rest is
    returned. *)
Theorem get_history_negative (h : t) (n : Z) :
  n < 0 ->
  get_history h n = skipn (Z.to_nat (- n)) h.
Proof.
  intros Hn. unfold get_history, Py.slice_from, Py.adjust_start.
  destruct (Z.ltb_spec (- n) 0) as [Hlt | _]; [lia |].
  destruct (Z.le_ge_cases (- n) (Z.of_nat (List.length h))) as [Hle | Hge].
  - now rewrite Z.min_l by assumption.
  - rewrite Z.min_r by assumption. rewrite Nat2Z.id.
    rewrite skipn_all. symmetry. apply skipn_all2. lia.
Qed.

End SessionMemoryWindow.

Lemma get_history_last_entries_witness :
  0 < 2
  /\ (exists older,
         Sample.three_entries
         = (older ++ SessionMemory.get_history Sample.three_entries 2)%list)
  /\ List.length (SessionMemory.get_history Sample.three_entries 2)
     = Nat.min (Z.to_nat 2) (List.length Sample.three_entries).
Proof.
  split; [reflexivity |].
  apply (get_history_last_entries Sample.three_entries 2). reflexivity.
Defined.

Lemma get_history_after_add_witness :
  0 < 5
  /\ SessionMemory.get_history (SessionMemory.add Sample.three_entries "Q4" "A4") 5
     = ((if 5 =? 1 then [] else SessionMemory.get_history Sample.three_entries (5 - 1))
          ++ [SessionMemory.Entry "Q4" "A4"])%list.
Proof.
  split; [reflexivity |].
  apply (get_history_after_add Sample.three_entries "Q4" "A4" 5). reflexivity.
Defined.

Lemma get_history_negative_witness :
  -2 < 0
  /\ SessionMemory.get_history Sample.three_entries (-2)
     = skipn (Z.to_nat (- -2)) Sample.three_entries.
Proof.
  split; [reflexivity |].
  apply (get_history_negative Sample.three_entries (-2)). reflexivity.
Defined.

(* ================================================================= *)
(** ** Further properties of the grouping *)

Section GroupLookup.

Import Grouping.

Lemma compare_refl (s : string) : String.compare s s = Eq.
Proof.
  destruct (String.compare s s) eqn:Hc; [reflexivity | |];
    pose proof (String.compare_antisym s s) as Ha; rewrite Hc in Ha;
    discriminate.
Qed.

Lemma ascii_compare_lt_trans (a b c : ascii) :
  Ascii.compare a b = Lt -> Ascii.compare b c = Lt -> Ascii.compare a c = Lt.
Proof.
  unfold Ascii.compare. rewrite !N.compare_lt_iff. apply N.lt_trans.
Qed.

Lemma str_lt_trans (a b c : string) : str_lt a b -> str_lt b c -> str_lt a c.
Proof.
  unfold str_lt. revert b c.
  induction a as [| x a IH]; intros [| y b] [| z c]; simpl; try discriminate; auto.
  destruct (Ascii.compare x y) eqn:Hxy; try discriminate.
  - apply Ascii.compare_eq_iff in Hxy. subst y.
    destruct (Ascii.compare x z); try discriminate; auto.
    intros Hab Hbc. eapply IH; eassumption.
  - intros _. destruct (Ascii.compare y z) eqn:Hyz; try discriminate.
    + apply Ascii.compare_eq_iff in Hyz. subst z. now rewrite Hxy.
    + intros _. now rewrite (ascii_compare_lt_trans x y z Hxy Hyz).
Qed.

Lemma str_lt_neq (a b : string) : str_lt a b -> String.eqb a b = false.
Proof.
  unfold str_lt. intros Hlt. apply String.eqb_neq. intros ->.
  rewrite compare_refl in Hlt. discriminate.
Qed.

Lemma compare_gt_lt (a b : string) : String.compare a b = Gt -> str_lt b a.
Proof.
  unfold str_lt. intros Hgt. rewrite String.compare_antisym, Hgt. reflexivity.
Qed.

Lemma add_to_group_keys (P : string -> Prop) (k : string) (r : Row)
      (gs : list (string * list Row)) :
  P k -> Forall P (map fst gs) -> Forall P (map fst (add_to_group k r gs)).
Proof.
  intros Hk. induction gs as [| [k' rs] gs IH]; intros Hgs; simpl.
  - constructor; [exact Hk | constructor].
  - inversion Hgs as [| ? ? Hk' Hrest]; subst.
    destruct (String.compare k k'); simpl; constructor; auto.
Qed.

(** The keys stay in strictly increasing order. *)
Lemma add_to_group_sorted (k : string) (r : Row) (gs : list (string * list Row)) :
  StronglySorted str_lt (map fst gs) ->
  StronglySorted str_lt (map fst (add_to_group k r gs)).
Proof.
  induction gs as [| [k' rs] gs IH]; intros Hs; simpl.
  - constructor; constructor.
  - inversion Hs as [| ? ? Htail Hhead]; subst.
    destruct (String.compare k k') eqn:Hc; simpl.
    + constructor; assumption.
    + constructor; [exact Hs |].
      constructor; [exact Hc |].
      eapply Forall_impl; [| exact Hhead].
      intros x Hx. eapply str_lt_trans; eassumption.
    + constructor; [now apply IH |].
      apply add_to_group_keys; [now apply compare_gt_lt | exact Hhead].
Qed.

Lemma lookup_group_above (k : string) (gs : list (string * list Row)) :
  Forall (str_lt k) (map fst gs) -> lookup_group k gs = None.
Proof.
  induction gs as [| [k' rs] gs IH]; intros Hall; simpl; [reflexivity |].
  inversion Hall as [| ? ? Hk Hrest]; subst.
  rewrite (str_lt_neq k k' Hk). now apply IH.
Qed.

(** Adding a record changes the group of its key and no other. *)
Lemma lookup_add_to_group (k k0 : string) (r : Row) (gs : list (string * list Row)) :
  StronglySorted str_lt (map fst gs) ->
  lookup_group k (add_to_group k0 r gs)
  = if String.eqb k k0
    then Some (match lookup_group k0 gs with
               | Some rs => (rs ++ [r])%list
               | None => [r]
               end)
    else lookup_group k gs.
Proof.
  induction gs as [| [k' rs] gs IH]; intros Hs; simpl.
  - destruct (String.eqb k k0); reflexivity.
  - inversion Hs as [| ? ? Htail Hhead]; subst.
    destruct (String.compare k0 k') eqn:Hc; simpl.
    + apply String.compare_eq_iff in Hc. subst k'.
      rewrite String.eqb_refl. destruct (String.eqb k k0); reflexivity.
    + rewrite (str_lt_neq k0 k' Hc).
      rewrite (lookup_group_above k0 gs).
      * destruct (String.eqb k k0); reflexivity.
      * eapply Forall_impl; [| exact Hhead].
        intros x Hx. eapply str_lt_trans; eassumption.
    + pose proof (str_lt_neq k' k0 (compare_gt_lt _ _ Hc)) as Hne.
      rewrite String.eqb_sym in Hne. rewrite Hne.
      rewrite (IH Htail).
      destruct (String.eqb_spec k k') as [-> | Hk]; [| reflexivity].
      rewrite String.eqb_sym, Hne. reflexivity.
Qed.

Section WithKey.

Variable key : Row -> option string.

Lemma filter_none_of (k : string) (seen : list Row) :
  existsb (fun r => str_eq (key r) k) seen = false ->
  filter (fun r => str_eq (key r) k) seen = [].
Proof.
  induction seen as [| r seen IH]; simpl; [reflexivity |].
  destruct (str_eq (key r) k); simpl; [discriminate | exact IH].
Qed.

Lemma groups_of_step (seen : list Row) (gs : list (string * list Row)) (r : Row) :
  groups_of key seen gs -> groups_of key (seen ++ [r]) (step key gs r).
Proof.
  intros [Hsorted Hlookup]. unfold step.
  destruct (key r) as [k0 |] eqn:Hkey.
  - split; [now apply add_to_group_sorted |].
    intros k. rewrite lookup_add_to_group by assumption.
    rewrite existsb_app, filter_app. cbn [existsb filter].
    rewrite Hkey. cbn [str_eq]. rewrite (String.eqb_sym k0 k).
    destruct (String.eqb_spec k k0) as [-> | Hne].
    + rewrite Hlookup, orb_true_r.
      destruct (existsb (fun r0 => str_eq (key r0) k0) seen) eqn:Hex.
      * reflexivity.
      * now rewrite (filter_none_of k0 seen Hex).
    + rewrite Hlookup, orb_false_r, app_nil_r. reflexivity.
  - split; [exact Hsorted |].
    intros k. rewrite existsb_app, filter_app. cbn [existsb filter].
    rewrite Hkey. cbn [str_eq]. rewrite orb_false_r, app_nil_r. apply Hlookup.
Qed.

Lemma groups_of_fold (df seen : list Row) (gs : list (string * list Row)) :
  groups_of key seen gs -> groups_of key (seen ++ df) (fold_left (step key) df gs).
Proof.
  revert seen gs. induction df as [| r df IH]; intros seen gs Hinv; simpl.
  - now rewrite app_nil_r.
  - replace (seen ++ r :: df)%list with ((seen ++ [r]) ++ df)%list
      by (rewrite <- app_assoc; reflexivity).
    apply IH. now apply groups_of_step.
Qed.

(** The groups of a table: sorted keys, and under each key the records
    with that key, in table order. *)
Lemma groupby_groups (df : DataFrame) : groups_of key df (groupby key df).
Proof.
  apply (groups_of_fold df [] []). split; [constructor | reflexivity].
Qed.

End WithKey.

Lemma dict_get_entries (entry : list Row -> pyobj) (k : string)
      (gs : list (string * list Row)) :
  dict_get k (map (fun g => (fst g, entry (snd g))) gs)
  = option_map entry (lookup_group k gs).
Proof.
  induction gs as [| [k' rs] gs IH]; simpl; [reflexivity |].
  destruct (String.eqb k k'); [reflexivity | exact IH].
Qed.

Lemma strongly_sorted_nodup (l : list string) :
  StronglySorted str_lt l -> NoDup l.
Proof.
  induction 1 as [| x l _ IH Hall]; constructor; [| exact IH].
  intros Hin. rewrite Forall_forall in Hall.
  pose proof (str_lt_neq x x (Hall x Hin)) as Hne.
  rewrite String.eqb_refl in Hne. discriminate.
Qed.

End GroupLookup.

(* ================================================================= *)
(** ** Further properties of the analyzer *)

Section AnalyzerLookups.

Context {pandas : Ops}.

Import DataAnalyzer Grouping.

(** X4.  Under a payment method the result holds the statistics of exactly
    the records with that payment method, taken in table order; a payment
    method that no record has is not a key of the result. *)
Theorem payment_group_lookup (self : DataAnalyzer.t) (table : DataFrame)
        (method : string) :
  df self = Some table ->
  lookup1 method (get_payment_method_analysis self)
  = if existsb (fun r => str_eq (Payment_Method r) method) table
    then Some (payment_entry
                 (filter (fun r => str_eq (Payment_Method r) method) table))
    else None.
Proof.
  intros Hdf. unfold get_payment_method_analysis. rewrite Hdf. cbn [lookup1].
  rewrite (dict_get_entries payment_entry).
  destruct (groupby_groups Payment_Method table) as [_ Hlookup].
  rewrite Hlookup.
  destruct (existsb _ table); reflexivity.
Qed.

(** X5.  Under a region the result holds the statistics of exactly the
    records with that client region, taken in table order; a region that no
    record has is not a key of the result. *)
Theorem region_group_lookup (self : DataAnalyzer.t) (table : DataFrame)
        (region : string) :
  df self = Some table ->
  lookup1 region (get_region_analysis self)
  = if existsb (fun r => str_eq (Client_Region r) region) table
    then Some (region_entry
                 (filter (fun r => str_eq (Client_Region r) region) table))
    else None.
Proof.
  intros Hdf. unfold get_region_analysis. rewrite Hdf. cbn [lookup1].
  rewrite (dict_get_entries region_entry).
  destruct (groupby_groups Client_Region table) as [_ Hlookup].
  rewrite Hlookup.
  destruct (existsb _ table); reflexivity.
Qed.

Lemma keys_of_entries (entry : list Row -> pyobj) (gs : list (string * list Row)) :
  keys (PDict (map (fun g => (fst g, entry (snd g))) gs)) = map fst gs.
Proof. cbn [keys]. rewrite map_map. reflexivity. Qed.

(** X6.  The keys of both breakdowns come in strictly increasing order of
    their bytes, so that no key occurs twice. *)
Theorem breakdown_keys_sorted (self : DataAnalyzer.t) (table : DataFrame) :
  df self = Some table ->
  exists payments regions,
    get_payment_method_analysis self = Ok payments
    /\ get_region_analysis self = Ok regions
    /\ StronglySorted str_lt (keys payments) /\ NoDup (keys payments)
    /\ StronglySorted str_lt (keys regions) /\ NoDup (keys regions).
Proof.
  intros Hdf. unfold get_payment_method_analysis, get_region_analysis.
  rewrite Hdf. eexists. eexists.
  split; [reflexivity |]. split; [reflexivity |].
  rewrite !keys_of_entries.
  destruct (groupby_groups Payment_Method table) as [Hp _].
  destruct (groupby_groups Client_Region table) as [Hr _].
  repeat split; auto using strongly_sorted_nodup.
Qed.

Lemma sum_total_freelancers_regions (gs : list (string * list Row)) :
  sum_total_freelancers
    (PDict (map (fun g => (fst g, region_entry (snd g))) gs))
  = group_total gs.
Proof.
  unfold sum_total_freelancers, group_total.
  induction gs as [| g gs IH]; [reflexivity |].
  cbn [map fold_right snd]. rewrite IH. reflexivity.
Qed.

(** X7.  The [total_freelancers] counts of the regions add up to the number
    of records that have both a client region and an earnings value. *)
Theorem region_counts_partition (self : DataAnalyzer.t) (table : DataFrame) :
  df self = Some table ->
  exists results,
    get_region_analysis self = Ok results
    /\ sum_total_freelancers results
       = count_if (fun r => is_some (Client_Region r) && notna (Earnings_USD r))
                  table.
Proof.
  intros Hdf. unfold get_region_analysis. rewrite Hdf.
  eexists. split; [reflexivity |].
  rewrite sum_total_freelancers_regions. apply groupby_total.
Qed.

Lemma filter_split_length {A : Type} (p : A -> bool) (l : list A) :
  Z.of_nat (List.length (filter p l))
  + Z.of_nat (List.length (filter (fun x => negb (p x)) l))
  = Z.of_nat (List.length l).
Proof.
  induction l as [| x l IH]; [reflexivity |].
  cbn [filter]. destruct (p x); cbn [negb List.length]; lia.
Qed.

(** X8.  The crypto comparison splits the table in two: the [count] of the
    crypto side and the [count] of the other side add up to the number of
    records, a record without payment method being on the other side. *)
Theorem crypto_counts_partition (self : DataAnalyzer.t) (table : DataFrame) :
  df self = Some table ->
  exists crypto other,
    lookup2 "crypto_stats" "count" (get_crypto_vs_other_analysis self)
    = Some (PInt crypto)
    /\ lookup2 "other_stats" "count" (get_crypto_vs_other_analysis self)
       = Some (PInt other)
    /\ crypto = count_if (fun r => str_eq (Payment_Method r) "Crypto") table
    /\ crypto + other = Z.of_nat (List.length table).
Proof.
  intros Hdf. unfold get_crypto_vs_other_analysis. rewrite Hdf.
  eexists. eexists. split; [reflexivity |]. split; [reflexivity |].
  split; [reflexivity |].
  apply filter_split_length.
Qed.

(** X9.  When there are experts and none of them has fewer than 100
    completed jobs, the percentage is exactly 0.0. *)
Theorem percentage_zero_without_juniors (self : DataAnalyzer.t) (table : DataFrame) :
  df self = Some table ->
  experts_of table <> [] ->
  experts_under_100_of table = [] ->
  lookup1 "percentage" (get_expert_analysis self) = Some (PFloat 0).
Proof.
  intros Hdf Hexperts Hunder.
  unfold get_expert_analysis. rewrite Hdf. cbv zeta. rewrite Hunder.
  cbn [List.length Z.of_nat].
  destruct (experts_of table) as [| r rest]; [congruence |].
  cbn [List.length]. rewrite Nat2Z.inj_succ. rewrite <- Z.add_1_l.
  destruct (1 + Z.of_nat (List.length rest)) as [| p | p] eqn:Htotal; try lia.
  reflexivity.
Qed.

(** [get_data_info] reports the number of records and shows the first
    five of them, or all when there are fewer. *)
Lemma data_info_sample (self : DataAnalyzer.t) (table : DataFrame) :
  df self = Some table ->
  lookup1 "total_records" (get_data_info self)
  = Some (PInt (Z.of_nat (List.length table)))
  /\ lookup1 "columns" (get_data_info self) = Some (PList (map PStr columns))
  /\ exists sample,
       lookup1 "sample_data" (get_data_info self) = Some (PList sample)
       /\ List.length sample = Nat.min 5 (List.length table)
       /\ sample = map (record_dict (job_completed_is_int table)) (firstn 5 table).
Proof.
  intros Hdf. unfold get_data_info. rewrite Hdf.
  split; [reflexivity |]. split; [reflexivity |].
  eexists. split; [reflexivity |]. split; [| reflexivity].
  unfold head_records. rewrite length_map, length_firstn. reflexivity.
Qed.

(** X10.  Building the analyzer on a path that resolves to nothing fails
    with [DataFileNotFound]; building it on a file that the reader accepts
    gives an analyzer that holds the table read, whose [get_data_info] counts
    the records of that table. *)
Theorem analyzer_construction (fs : CsvLoader.filesystem) (path : string) :
  (fs path = None ->
   DataAnalyzer.init (CsvLoader.load fs) path
   = Err (Raise DataFileNotFound ("Файл не найден: " ++ path)))
  /\ (forall content table,
         fs path = Some (CsvLoader.File content) ->
         read_csv content = Ok table ->
         exists self,
           DataAnalyzer.init (CsvLoader.load fs) path = Ok self
           /\ df self = Some table
           /\ lookup1 "total_records" (get_data_info self)
              = Some (PInt (Z.of_nat (List.length table)))).
Proof.
  split.
  - intros Hnone. apply init_propagates.
    unfold CsvLoader.load, CsvLoader.exists_. now rewrite Hnone.
  - intros content table Hfile Hread.
    exists (DataAnalyzer.Make path (Some table)).
    split; [| split; reflexivity].
    apply init_loaded.
    unfold CsvLoader.load, CsvLoader.exists_, CsvLoader.pd_read_csv.
    now rewrite Hfile.
Qed.

End AnalyzerLookups.

Lemma payment_group_lookup_witness :
  DataAnalyzer.df Sample.mock_analyzer = Some Sample.MOCK_DATA
  /\ lookup1 "Crypto" (DataAnalyzer.get_payment_method_analysis Sample.mock_analyzer)
     = if existsb (fun r => str_eq (Payment_Method r) "Crypto") Sample.MOCK_DATA
       then Some (DataAnalyzer.payment_entry
                    (filter (fun r => str_eq (Payment_Method r) "Crypto")
                            Sample.MOCK_DATA))
       else None.
Proof.
  split; [reflexivity |].
  apply (payment_group_lookup Sample.mock_analyzer Sample.MOCK_DATA "Crypto").
  reflexivity.
Defined.

Lemma region_group_lookup_witness :
  DataAnalyzer.df Sample.mock_analyzer = Some Sample.MOCK_DATA
  /\ lookup1 "EU" (DataAnalyzer.get_region_analysis Sample.mock_analyzer)
     = if existsb (fun r => str_eq (Client_Region r) "EU") Sample.MOCK_DATA
       then Some (DataAnalyzer.region_entry
                    (filter (fun r => str_eq (Client_Region r) "EU")
                            Sample.MOCK_DATA))
       else None.
Proof.
  split; [reflexivity |].
  apply (region_group_lookup Sample.mock_analyzer Sample.MOCK_DATA "EU").
  reflexivity.
Defined.

Lemma breakdown_keys_sorted_witness :
  DataAnalyzer.df Sample.mock_analyzer = Some Sample.MOCK_DATA
  /\ exists payments regions,
       DataAnalyzer.get_payment_method_analysis Sample.mock_analyzer = Ok payments
       /\ DataAnalyzer.get_region_analysis Sample.mock_analyzer = Ok regions
       /\ StronglySorted Grouping.str_lt (Grouping.keys payments)
       /\ NoDup (Grouping.keys payments)
       /\ StronglySorted Grouping.str_lt (Grouping.keys regions)
       /\ NoDup (Grouping.keys regions).
Proof.
  split; [reflexivity |].
  apply (breakdown_keys_sorted Sample.mock_analyzer Sample.MOCK_DATA).
  reflexivity.
Defined.

Lemma region_counts_partition_witness :
  DataAnalyzer.df Sample.mock_analyzer = Some Sample.MOCK_DATA
  /\ exists results,
       DataAnalyzer.get_region_analysis Sample.mock_analyzer = Ok results
       /\ DataAnalyzer.sum_total_freelancers results
          = count_if (fun r => is_some (Client_Region r) && notna (Earnings_USD r))
                     Sample.MOCK_DATA.
Proof.
  split; [reflexivity |].
  apply (region_counts_partition Sample.mock_analyzer Sample.MOCK_DATA).
  reflexivity.
Defined.

Lemma crypto_counts_partition_witness :
  DataAnalyzer.df Sample.missing_cells_analyzer = Some Sample.with_missing_cells
  /\ exists crypto other,
       lookup2 "crypto_stats" "count"
               (DataAnalyzer.get_crypto_vs_other_analysis Sample.missing_cells_analyzer)
       = Some (PInt crypto)
       /\ lookup2 "other_stats" "count"
                  (DataAnalyzer.get_crypto_vs_other_analysis Sample.missing_cells_analyzer)
          = Some (PInt other)
       /\ crypto = count_if (fun r => str_eq (Payment_Method r) "Crypto")
                            Sample.with_missing_cells
       /\ crypto + other = Z.of_nat (List.length Sample.with_missing_cells).
Proof.
  split; [reflexivity |].
  apply (crypto_counts_partition
           Sample.missing_cells_analyzer Sample.with_missing_cells).
  reflexivity.
Defined.

Lemma percentage_zero_without_juniors_witness :
  DataAnalyzer.df Fixtures.senior_analyzer = Some Fixtures.seniors
  /\ DataAnalyzer.experts_of Fixtures.seniors <> []
  /\ DataAnalyzer.experts_under_100_of Fixtures.seniors = []
  /\ lookup1 "percentage" (DataAnalyzer.get_expert_analysis Fixtures.senior_analyzer)
     = Some (PFloat 0).
Proof.
  split; [reflexivity |]. split; [discriminate |]. split; [reflexivity |].
  apply (percentage_zero_without_juniors Fixtures.senior_analyzer Fixtures.seniors).
  - reflexivity.
  - discriminate.
  - reflexivity.
Defined.

Lemma analyzer_construction_witness :
  (Fixtures.no_files "data/freelancer_earnings_bd.csv" = None
   /\ DataAnalyzer.init (CsvLoader.load Fixtures.no_files)
                        "data/freelancer_earnings_bd.csv"
      = Err (Raise DataFileNotFound
               ("Файл не найден: " ++ "data/freelancer_earnings_bd.csv")))
  /\ (Sample.fs "data/freelancer_earnings_bd.csv"
      = Some (CsvLoader.File (Sample.header ++ AnalysisChain.newline))
      /\ read_csv (Sample.header ++ AnalysisChain.newline) = Ok []
      /\ exists self,
           DataAnalyzer.init (CsvLoader.load Sample.fs)
                             "data/freelancer_earnings_bd.csv" = Ok self
           /\ DataAnalyzer.df self = Some []
           /\ lookup1 "total_records" (DataAnalyzer.get_data_info self)
              = Some (PInt (Z.of_nat (List.length (@nil Row))))).
Proof.
  split.
  - split; [reflexivity |].
    apply (proj1 (analyzer_construction
                    Fixtures.no_files "data/freelancer_earnings_bd.csv")).
    reflexivity.
  - split; [reflexivity |]. split; [reflexivity |].
    apply (proj2 (analyzer_construction
                    Sample.fs "data/freelancer_earnings_bd.csv")
                 (Sample.header ++ AnalysisChain.newline) []);
      reflexivity.
Defined.

(* ================================================================= *)
(** ** Which values the encoders accept *)

Section AdmissionFacts.

Import Json Admission.

Lemma encodable_admits (o : pyobj) : encodable o = admits convertible o.
Proof.
  induction o as [ | b | z | f | s | l IH | d IH | x ] using pyobj_nested_ind;
    try reflexivity.
  - cbn [encodable admits]. induction IH as [| y l Hy _ IHl]; [reflexivity |].
    cbn [forallb]. now rewrite Hy, IHl.
  - cbn [encodable admits]. induction IH as [| kv d Hkv _ IHd]; [reflexivity |].
    cbn [forallb]. now rewrite Hkv, IHd.
Qed.

Lemma plain_admits (o : pyobj) : plain o = admits (fun _ => false) o.
Proof.
  induction o as [ | b | z | f | s | l IH | d IH | x ] using pyobj_nested_ind;
    try reflexivity.
  - cbn [plain admits]. induction IH as [| y l Hy _ IHl]; [reflexivity |].
    cbn [forallb]. now rewrite Hy, IHl.
  - cbn [plain admits]. induction IH as [| kv d Hkv _ IHd]; [reflexivity |].
    cbn [forallb]. now rewrite Hkv, IHd.
Qed.

Variable hook : libobj -> result json.
Variable ok : libobj -> bool.
Hypothesis hook_decided : forall x, decided hook ok (PLib x).

Lemma items_decided {X Y : Type} (f : X -> result Y) (good : X -> bool)
      (l : list X) :
  Forall (fun x => if good x then exists y, f x = Ok y
                   else exists e, f x = Err e /\ cls e = TypeError) l ->
  if forallb good l
  then exists ys, Py.traverse f l = Ok ys
  else exists e, Py.traverse f l = Err e /\ cls e = TypeError.
Proof.
  induction 1 as [| x l Hx _ IH]; cbn [forallb Py.traverse].
  - eexists. reflexivity.
  - destruct (good x).
    + destruct Hx as [y ->]. cbn [andb].
      destruct (forallb good l).
      * destruct IH as [ys ->]. eexists. reflexivity.
      * destruct IH as (e & -> & He). exists e. split; [reflexivity | exact He].
    + destruct Hx as (e & -> & He). cbn [andb].
      exists e. split; [reflexivity | exact He].
Qed.

Lemma encode_with_decided (o : pyobj) : decided hook ok o.
Proof.
  induction o as [ | b | z | f | s | l IH | d IH | x ] using pyobj_nested_ind;
    try (unfold decided; cbn [admits]; eexists; reflexivity).
  - unfold decided. rewrite encode_with_list. cbn [admits].
    pose proof (items_decided (encode_with hook) (admits ok) l IH) as Hl.
    destruct (forallb (admits ok) l).
    + destruct Hl as [js ->]. eexists. reflexivity.
    + destruct Hl as (e & -> & He). exists e. split; [reflexivity | exact He].
  - unfold decided. rewrite encode_with_dict. cbn [admits].
    pose proof (items_decided
                  (fun kv => Py.bind (encode_with hook (snd kv))
                                     (fun j => Ok (fst kv, j)))
                  (fun kv => admits ok (snd kv)) d) as Hd.
    assert (Hall : Forall
              (fun kv => if admits ok (snd kv)
                         then exists y, Py.bind (encode_with hook (snd kv))
                                                (fun j => Ok (fst kv, j)) = Ok y
                         else exists e, Py.bind (encode_with hook (snd kv))
                                                (fun j => Ok (fst kv, j)) = Err e
                                        /\ cls e = TypeError) d).
    { eapply Forall_impl; [| exact IH]. intros kv Hkv. unfold decided in Hkv.
      destruct (admits ok (snd kv)).
      - destruct Hkv as [j ->]. eexists. reflexivity.
      - destruct Hkv as (e & -> & He). exists e. split; [reflexivity | exact He]. }
    specialize (Hd Hall).
    destruct (forallb (fun kv => admits ok (snd kv)) d).
    + destruct Hd as [js ->]. eexists. reflexivity.
    + destruct Hd as (e & -> & He). exists e. split; [reflexivity | exact He].
  - apply hook_decided.
Qed.

End AdmissionFacts.

Section EncoderOutcomes.

Import Json Admission.

Lemma np_hook_decided (x : libobj) :
  decided (fun x => Py.bind (default x) standard_encode) convertible (PLib x).
Proof.
  unfold decided. cbn [admits encode_with].
  destruct x as [z | f | f | b | a | name | | ]; cbn [convertible];
    try (eexists; reflexivity).
  - destruct a as [zs | fs | bs]; eexists; cbn [default tolist Py.bind].
    + apply standard_encode_ints.
    + apply standard_encode_floats.
    + apply standard_encode_bools.
  - eexists. split; reflexivity.
Qed.

Lemma standard_hook_decided (x : libobj) :
  decided (fun x => Err (not_serializable x)) float64_only (PLib x).
Proof.
  unfold decided. cbn [admits encode_with].
  destruct x; cbn [float64_only]; eexists; try split; reflexivity.
Qed.

Lemma encode_outcome (o : pyobj) :
  if encodable o
  then exists j, encode o = Ok j
  else exists e, encode o = Err e /\ cls e = TypeError.
Proof.
  rewrite encodable_admits.
  exact (encode_with_decided _ _ np_hook_decided o).
Qed.

Lemma standard_encode_outcome (o : pyobj) :
  if admits float64_only o
  then exists j, standard_encode o = Ok j
  else exists e, standard_encode o = Err e /\ cls e = TypeError.
Proof. exact (encode_with_decided _ _ standard_hook_decided o). Qed.

(** X11.  With [NpEncoder] a value is serialized exactly when no
    [pandas.Int64Dtype] object occurs in it; when one occurs, the encoder
    raises [TypeError], the error of [int(obj)]. *)
Theorem encode_succeeds_iff_encodable (o : pyobj) :
  ((exists j, encode o = Ok j) <-> encodable o = true)
  /\ (encodable o = false -> exists e, encode o = Err e /\ cls e = TypeError).
Proof.
  pose proof (encode_outcome o) as Ho.
  destruct (encodable o).
  - split; [tauto | discriminate].
  - destruct Ho as (e & He & Hcls). split.
    + split; [| discriminate]. intros [j Hj]. congruence.
    + intros _. exists e. split; assumption.
Qed.

(** X12.  Without [NpEncoder] a value is serialized exactly when the only
    library objects in it are [numpy.float64] numbers, which the encoder
    writes as floats; any other numpy or pandas object anywhere in the value
    makes the standard encoder raise [TypeError]. *)
Theorem standard_encode_succeeds_iff_float64_only (o : pyobj) :
  ((exists j, standard_encode o = Ok j) <-> admits float64_only o = true)
  /\ (admits float64_only o = false ->
      exists e, standard_encode o = Err e /\ cls e = TypeError).
Proof.
  pose proof (standard_encode_outcome o) as Ho.
  destruct (admits float64_only o).
  - split; [tauto | discriminate].
  - destruct Ho as (e & He & Hcls). split.
    + split; [| discriminate]. intros [j Hj]. congruence.
    + intros _. exists e. split; assumption.
Qed.

Lemma plain_encodable (o : pyobj) : plain o = true -> encodable o = true.
Proof.
  induction o as [ | b | z | f | s | l IH | d IH | x ] using pyobj_nested_ind;
    try reflexivity; cbn [plain encodable].
  - rewrite !forallb_forall. rewrite Forall_forall in IH. auto.
  - rewrite !forallb_forall. rewrite Forall_forall in IH. auto.
  - discriminate.
Qed.

Lemma normalize_plain (o : pyobj) : plain o = true -> normalize o = o.
Proof.
  induction o as [ | b | z | f | s | l IH | d IH | x ] using pyobj_nested_ind;
    try reflexivity; cbn [plain normalize].
  - intros Hl. f_equal. rewrite forallb_forall in Hl.
    induction IH as [| y l Hy _ IHl]; [reflexivity |].
    cbn [map]. rewrite Hy by (apply Hl; now left).
    f_equal. apply IHl. intros z Hz. apply Hl. now right.
  - intros Hd. f_equal. rewrite forallb_forall in Hd.
    induction IH as [| [k v] d Hkv _ IHd]; [reflexivity |].
    cbn [map fst snd] in *. rewrite Hkv by (apply (Hd (k, v)); now left).
    f_equal. apply IHd. intros z Hz. apply Hd. now right.
  - discriminate.
Qed.

(** X13.  [NpEncoder] changes nothing for a value made of plain Python
    values only: it writes the document that the standard encoder writes. *)
Theorem encode_plain_unchanged (o : pyobj) :
  plain o = true ->
  encode o = standard_encode o /\ exists j, encode o = Ok j.
Proof.
  intros Hplain.
  destruct (encode_normalizes o (plain_encodable o Hplain)) as (Hnorm & _ & Hj).
  rewrite (normalize_plain o Hplain) in Hnorm. split; assumption.
Qed.

End EncoderOutcomes.

Section EncoderNeeded.

Context {pandas : Ops}.

Import DataAnalyzer Json.

(** X14.  As soon as one record has a payment method, the payment
    breakdown cannot be written by the standard encoder: the averages, being
    [numpy.float64], pass, and the [total_freelancers] count of the first
    group, a [numpy.int64], is refused with [TypeError].  [NpEncoder]
    serializes the breakdown. *)
Theorem payment_breakdown_needs_np_encoder
        (self : DataAnalyzer.t) (table : DataFrame) (method : string) :
  df self = Some table ->
  existsb (fun r => str_eq (Payment_Method r) method) table = true ->
  exists results,
    get_payment_method_analysis self = Ok results
    /\ standard_encode results
       = Err (Raise TypeError "Object of type int64 is not JSON serializable")
    /\ (exists j, encode results = Ok j).
Proof.
  intros Hdf Hex.
  unfold get_payment_method_analysis. rewrite Hdf.
  eexists. split; [reflexivity |]. split.
  - destruct (groupby_groups Payment_Method table) as [_ Hlookup].
    specialize (Hlookup method). rewrite Hex in Hlookup.
    destruct (groupby Payment_Method table) as [| g gs]; [discriminate |].
    reflexivity.
  - assert (Henc : encodable
                     (PDict (map (fun g => (fst g, payment_entry (snd g)))
                                 (groupby Payment_Method table))) = true).
    { apply (encodable_payment self). unfold get_payment_method_analysis.
      now rewrite Hdf. }
    pose proof (encode_outcome
                  (PDict (map (fun g => (fst g, payment_entry (snd g)))
                              (groupby Payment_Method table)))) as Hout.
    now rewrite Henc in Hout.
Qed.

End EncoderNeeded.

(* ================================================================= *)
(** ** Further properties of the analysis chain *)

Section ChainOutcomes.

Context {pandas : Ops} {llm : AnalysisChain.Services}.

Import AnalysisChain.

Lemma get_analysis_data_returns
      (self : AnalysisChain.t) (label question : string) :
  exists payload, _get_analysis_data self label question = Ok payload.
Proof.
  unfold _get_analysis_data.
  destruct (dispatch self label); eexists; reflexivity.
Qed.

(** Whatever the dispatcher returns can be serialized. *)
Lemma get_analysis_data_encodable
      (self : AnalysisChain.t) (label question : string) (payload : pyobj) :
  _get_analysis_data self label question = Ok payload ->
  Json.encodable payload = true.
Proof.
  unfold _get_analysis_data, dispatch.
  repeat match goal with
         | |- context [ if String.eqb ?a ?b then _ else _ ] =>
             destruct (String.eqb a b)
         end.
  - destruct (DataAnalyzer.get_payment_method_analysis _) eqn:Hop;
      cbn [Py.try_except]; intros [= <-];
      [now apply (encodable_payment (data_analyzer self)) | reflexivity].
  - destruct (DataAnalyzer.get_region_analysis _) eqn:Hop;
      cbn [Py.try_except]; intros [= <-];
      [now apply (encodable_region (data_analyzer self)) | reflexivity].
  - destruct (DataAnalyzer.get_expert_analysis _) eqn:Hop;
      cbn [Py.try_except]; intros [= <-];
      [now apply (encodable_expert (data_analyzer self)) | reflexivity].
  - destruct (DataAnalyzer.get_crypto_vs_other_analysis _) eqn:Hop;
      cbn [Py.try_except]; intros [= <-];
      [now apply (encodable_crypto (data_analyzer self)) | reflexivity].
  - destruct (DataAnalyzer.get_data_info _) eqn:Hop;
      cbn [Py.try_except]; intros [= <-];
      [now apply (encodable_data_info (data_analyzer self)) | reflexivity].
  - destruct (DataAnalyzer.get_data_info _) eqn:Hop;
      cbn [Py.bind Py.try_except]; intros [= <-]; [| reflexivity].
    cbn [Json.encodable forallb snd].
    now rewrite (encodable_data_info (data_analyzer self) a Hop).
Qed.

(** X15.  Once the classifier has answered, the analysis data is always
    obtained and serialized: the prompt is built, and the interpreter alone
    decides the outcome.  Its answer is returned and recorded; its exception
    becomes the error answer. *)
Theorem analyze_question_after_classification
        (self : AnalysisChain.t) (question raw : string) :
  classification_chain question = Ok raw ->
  exists payload document,
    _get_analysis_data self (Py.strip raw) question = Ok payload
    /\ Json.encode payload = Ok document
    /\ let context :=
         context_of (SessionMemory.get_history_default (memory self)) in
       let vars :=
         PromptVars question (json_text document)
                    (if String.eqb context "" then None else Some context) in
       (forall response,
           interpretation_chain vars = Ok response ->
           analyze_question self question
           = Ok (response,
                 Make (data_analyzer self)
                      (SessionMemory.add (memory self) question response)))
       /\ (forall e,
              interpretation_chain vars = Err e ->
              analyze_question self question = Ok (error_prefix ++ str e, self)).
Proof.
  intros Hc.
  destruct (get_analysis_data_returns self (Py.strip raw) question)
    as [payload Hpayload].
  pose proof (get_analysis_data_encodable _ _ _ _ Hpayload) as Henc.
  destruct (encode_normalizes payload Henc) as (_ & _ & document & Hdoc).
  exists payload, document.
  split; [exact Hpayload |]. split; [exact Hdoc |].
  cbv zeta. unfold analyze_question, analyze_question_try, dumps.
  rewrite Hc. cbn [Py.bind]. rewrite Hpayload. cbn [Py.bind].
  rewrite Hdoc. cbn [Py.bind].
  split; intros x Hx; rewrite Hx; reflexivity.
Qed.

(** X16.  [analyze_question] never touches the analyzer, and it changes the
    memory in one way only: after an interpreter answer, the question and
    that answer are appended.  When it returns the error answer the chain is
    as before. *)
Theorem analyze_question_effect
        (self self' : AnalysisChain.t) (question answer : string) :
  analyze_question self question = Ok (answer, self') ->
  data_analyzer self' = data_analyzer self
  /\ ((exists e, answer = error_prefix ++ str e /\ self' = self)
      \/ memory self' = SessionMemory.add (memory self) question answer).
Proof.
  unfold analyze_question, analyze_question_try.
  destruct (classification_chain question) as [raw | e]; cbn [Py.bind].
  - destruct (_get_analysis_data self (Py.strip raw) question) as [payload | e];
      cbn [Py.bind].
    + destruct (dumps payload) as [text | e]; cbn [Py.bind].
      * destruct (interpretation_chain _) as [response | e];
          cbn [Py.bind Py.try_except]; intros [= <- <-].
        -- split; [reflexivity | right; reflexivity].
        -- split; [reflexivity | left; eexists; split; reflexivity].
      * cbn [Py.try_except]. intros [= <- <-].
        split; [reflexivity | left; eexists; split; reflexivity].
    + cbn [Py.try_except]. intros [= <- <-].
      split; [reflexivity | left; eexists; split; reflexivity].
  - cbn [Py.try_except]. intros [= <- <-].
    split; [reflexivity | left; eexists; split; reflexivity].
Qed.

Lemma join_nonempty (sep : string) (f : SessionMemory.entry -> string)
      (x : SessionMemory.entry) (l : list SessionMemory.entry) :
  f x <> "" -> Py.join sep (map f (x :: l)) <> "".
Proof.
  intros Hx. cbn [map Py.join].
  destruct (map f l); [exact Hx |].
  destruct (f x); [congruence | discriminate].
Qed.

(** X17.  The interpreter is given a context exactly when the memory holds
    at least one earlier turn. *)
Theorem context_empty_iff (h : SessionMemory.t) :
  context_of (SessionMemory.get_history_default h) = "" <-> h = [].
Proof.
  split.
  - intros Hctx. destruct h as [| e h]; [reflexivity |]. exfalso.
    assert (Hlen : List.length (SessionMemory.get_history_default (e :: h))
                   = Nat.min 5 (List.length (e :: h))).
    { unfold SessionMemory.get_history_default.
      now rewrite get_history_positive_length. }
    destruct (SessionMemory.get_history_default (e :: h)) as [| x l] eqn:Hwin.
    + cbn [List.length] in Hlen. lia.
    + unfold context_of in Hctx. revert Hctx. apply join_nonempty. discriminate.
  - intros ->. reflexivity.
Qed.

End ChainOutcomes.

Lemma analyze_question_after_classification_witness :
  AnalysisChain.classification_chain "How many experts?"
  = Ok (" expert" ++ AnalysisChain.newline)
  /\ exists payload document,
       AnalysisChain._get_analysis_data Sample.no_expert_chain
         (Py.strip (" expert" ++ AnalysisChain.newline)) "How many experts?"
       = Ok payload
       /\ Json.encode payload = Ok document
       /\ let context :=
            AnalysisChain.context_of
              (SessionMemory.get_history_default
                 (AnalysisChain.memory Sample.no_expert_chain)) in
          let vars :=
            AnalysisChain.PromptVars "How many experts?"
              (AnalysisChain.json_text document)
              (if String.eqb context "" then None else Some context) in
          (forall response,
              AnalysisChain.interpretation_chain vars = Ok response ->
              AnalysisChain.analyze_question Sample.no_expert_chain "How many experts?"
              = Ok (response,
                    AnalysisChain.Make
                      (AnalysisChain.data_analyzer Sample.no_expert_chain)
                      (SessionMemory.add
                         (AnalysisChain.memory Sample.no_expert_chain)
                         "How many experts?" response)))
          /\ (forall e,
                 AnalysisChain.interpretation_chain vars = Err e ->
                 AnalysisChain.analyze_question Sample.no_expert_chain
                   "How many experts?"
                 = Ok (AnalysisChain.error_prefix ++ str e, Sample.no_expert_chain)).
Proof.
  split; [reflexivity |].
  apply (analyze_question_after_classification
           Sample.no_expert_chain "How many experts?"
           (" expert" ++ AnalysisChain.newline)).
  reflexivity.
Defined.

Lemma analyze_question_effect_witness :
  AnalysisChain.analyze_question Sample.no_expert_chain "How many experts?"
  = Ok ("No experts were found.",
        AnalysisChain.Make Sample.no_expert_analyzer
          (SessionMemory.add Sample.three_entries
             "How many experts?" "No experts were found."))
  /\ AnalysisChain.data_analyzer
       (AnalysisChain.Make Sample.no_expert_analyzer
          (SessionMemory.add Sample.three_entries
             "How many experts?" "No experts were found."))
     = AnalysisChain.data_analyzer Sample.no_expert_chain.
Proof.
  assert (Hrun :
    AnalysisChain.analyze_question Sample.no_expert_chain "How many experts?"
    = Ok ("No experts were found.",
          AnalysisChain.Make Sample.no_expert_analyzer
            (SessionMemory.add Sample.three_entries
               "How many experts?" "No experts were found."))).
  { vm_compute. reflexivity. }
  split; [exact Hrun |].
  exact (proj1 (analyze_question_effect
                  Sample.no_expert_chain _ "How many experts?" _ Hrun)).
Defined.

(* ================================================================= *)
(** ** Properties of the custom query *)

Section CustomQueryFacts.

Import CustomQuery.

Lemma prefix_append (w b : string) : String.prefix w (w ++ b) = true.
Proof.
  induction w as [| c w IH]; simpl.
  - destruct b; reflexivity.
  - destruct (ascii_dec c c) as [_ | Hc]; [exact IH | congruence].
Qed.

(** A name is found wherever it stands in the query. *)
Lemma contains_infix (a w b : string) : contains w (a ++ w ++ b) = true.
Proof.
  unfold contains. induction a as [| c a IH].
  - cbn [append]. destruct (w ++ b) as [| c s] eqn:Hwb.
    + destruct w; [reflexivity | discriminate].
    + cbn [String.index]. rewrite <- Hwb, prefix_append. reflexivity.
  - cbn [append String.index].
    destruct (String.prefix w (String c (a ++ w ++ b))); [reflexivity |].
    destruct (String.index 0 w (a ++ w ++ b)); [reflexivity | discriminate].
Qed.

Context {python : Interpreter}.

(** X18.  A query in which none of the fifteen allowed names occurs is
    refused with the fixed message, and nothing is evaluated: the outcome
    does not depend on what the expression would yield. *)
Theorem custom_query_refused (self : DataAnalyzer.t) (table : DataFrame)
        (query : string) :
  DataAnalyzer.df self = Some table ->
  (forall method, In method allowed_methods -> contains method query = false) ->
  execute_custom_query self query = Ok (QMessage rejection).
Proof.
  intros Hdf Hnone. unfold execute_custom_query. rewrite Hdf.
  assert (Hguard : existsb (fun method => contains method query) allowed_methods
                   = false).
  { apply not_true_is_false. intros Hex.
    apply existsb_exists in Hex as (method & Hin & Hc).
    rewrite (Hnone method Hin) in Hc. discriminate. }
  rewrite Hguard. reflexivity.
Qed.

(** X19.  The allow-list only asks for a name to occur: a query with an
    allowed name anywhere in it, whatever stands before and after, is
    evaluated as it is.  The value of the expression is returned, and an
    exception raised by the evaluation comes back as a message, not as an
    exception. *)
Theorem custom_query_evaluated (self : DataAnalyzer.t) (table : DataFrame)
        (before method after : string) :
  DataAnalyzer.df self = Some table ->
  In method allowed_methods ->
  let query := before ++ method ++ after in
  (forall v, eval_on table query = Ok v ->
             execute_custom_query self query = Ok (QValue v))
  /\ (forall e, eval_on table query = Err e ->
                execute_custom_query self query
                = Ok (QMessage (query_error_prefix ++ str e))).
Proof.
  intros Hdf Hin query. unfold execute_custom_query. rewrite Hdf.
  assert (Hguard : existsb (fun m => contains m query) allowed_methods = true).
  { apply existsb_exists. exists method. split; [exact Hin |].
    apply contains_infix. }
  rewrite Hguard. split; intros x Hx; rewrite Hx; reflexivity.
Qed.

End CustomQueryFacts.

Lemma custom_query_refused_witness :
  DataAnalyzer.df Sample.mock_analyzer = Some Sample.MOCK_DATA
  /\ (forall method, In method CustomQuery.allowed_methods ->
                     CustomQuery.contains method "shape" = false)
  /\ CustomQuery.execute_custom_query Sample.mock_analyzer "shape"
     = Ok (CustomQuery.QMessage CustomQuery.rejection).
Proof.
  assert (Hnone : forall method, In method CustomQuery.allowed_methods ->
                                 CustomQuery.contains method "shape" = false).
  { intros method Hin. cbn [CustomQuery.allowed_methods In] in Hin.
    repeat (destruct Hin as [<- | Hin]; [reflexivity |]). destruct Hin. }
  split; [reflexivity |]. split; [exact Hnone |].
  apply (custom_query_refused Sample.mock_analyzer Sample.MOCK_DATA "shape").
  - reflexivity.
  - exact Hnone.
Defined.

Lemma custom_query_evaluated_witness :
  DataAnalyzer.df Sample.mock_analyzer = Some Sample.MOCK_DATA
  /\ In "head" CustomQuery.allowed_methods
  /\ CustomQuery.eval_on Sample.MOCK_DATA ("" ++ "head" ++ "(2).shape[0]")
     = Ok (Some 2)
  /\ CustomQuery.execute_custom_query Sample.mock_analyzer
       ("" ++ "head" ++ "(2).shape[0]")
     = Ok (CustomQuery.QValue (Some 2)).
Proof.
  assert (Hin : In "head" CustomQuery.allowed_methods).
  { cbn. tauto. }
  split; [reflexivity |]. split; [exact Hin |]. split; [reflexivity |].
  apply (proj1 (custom_query_evaluated
                  Sample.mock_analyzer Sample.MOCK_DATA
                  "" "head" "(2).shape[0]" eq_refl Hin)).
  reflexivity.
Defined.

(* ================================================================= *)
(** ** Properties of the configuration and of building the chain *)

Section ConfigFacts.

Context {pandas : Ops} {runtime : LLMConfig.Runtime}.

Import LLMConfig.

(** X21.  When [OPENAI_API_KEY] is unset or empty and the two numeric
    settings convert, [get_llm] raises [LLMConfigError] with the fixed
    message, and the client is not constructed. *)
Theorem get_llm_without_key (env : environ) (temp : float) (tokens : Z) :
  key_missing (env "OPENAI_API_KEY") = true ->
  py_float (getenv env "OPENAI_TEMPERATURE" "0.0") = Ok temp ->
  py_int (getenv env "OPENAI_MAX_TOKENS" "1000") = Ok tokens ->
  get_llm env = Err (Raise LLMConfigError missing_key_message).
Proof.
  intros Hkey Htemp Htokens.
  unfold get_llm, init. rewrite Htemp, Htokens. cbn [Py.bind].
  unfold create_llm, validate_config. cbn [openai_api_key].
  rewrite Hkey. reflexivity.
Qed.

(** X22.  With a key that is set and not empty, the client is constructed
    with that key, the model name of the environment or "gpt-4.1-nano", and
    the two converted settings. *)
Theorem get_llm_with_key (env : environ) (key : string) (temp : float) (tokens : Z) :
  env "OPENAI_API_KEY" = Some key ->
  key <> "" ->
  py_float (getenv env "OPENAI_TEMPERATURE" "0.0") = Ok temp ->
  py_int (getenv env "OPENAI_MAX_TOKENS" "1000") = Ok tokens ->
  get_llm env
  = ChatOpenAI (getenv env "OPENAI_MODEL" "gpt-4.1-nano") temp tokens key.
Proof.
  intros Hkey Hne Htemp Htokens.
  unfold get_llm, init. rewrite Htemp, Htokens, Hkey. cbn [Py.bind].
  unfold create_llm, validate_config. cbn [openai_api_key key_missing].
  apply String.eqb_neq in Hne. rewrite Hne. reflexivity.
Qed.

(** X23.  Building the chain without an analyzer loads the default data
    file first: when that file is absent the constructor fails with
    [DataFileNotFound] whatever the environment holds.  With an analyzer
    given and the key missing it fails with [LLMConfigError]. *)
Theorem chain_construction_failures
        (fs : CsvLoader.filesystem) (env : environ)
        (memory : option SessionMemory.t) :
  (fs ChainInit.default_data_path = None ->
   ChainInit.init fs env None memory
   = Err (Raise DataFileNotFound
            ("Файл не найден: " ++ ChainInit.default_data_path)))
  /\ (forall analyzer temp tokens,
         key_missing (env "OPENAI_API_KEY") = true ->
         py_float (getenv env "OPENAI_TEMPERATURE" "0.0") = Ok temp ->
         py_int (getenv env "OPENAI_MAX_TOKENS" "1000") = Ok tokens ->
         ChainInit.init fs env (Some analyzer) memory
         = Err (Raise LLMConfigError missing_key_message)).
Proof.
  split.
  - intros Hnone. unfold ChainInit.init.
    rewrite (init_propagates (CsvLoader.load fs) ChainInit.default_data_path
               (Raise DataFileNotFound
                  ("Файл не найден: " ++ ChainInit.default_data_path))).
    + reflexivity.
    + unfold CsvLoader.load, CsvLoader.exists_. now rewrite Hnone.
  - intros analyzer temp tokens Hkey Htemp Htokens.
    unfold ChainInit.init. cbn [Py.bind].
    unfold get_llm, init. rewrite Htemp, Htokens. cbn [Py.bind].
    unfold create_llm, validate_config. cbn [openai_api_key].
    rewrite Hkey. reflexivity.
Qed.

End ConfigFacts.

Lemma get_llm_without_key_witness :
  LLMConfig.key_missing (Fixtures.blank_key_env "OPENAI_API_KEY") = true
  /\ LLMConfig.py_float
       (LLMConfig.getenv Fixtures.blank_key_env "OPENAI_TEMPERATURE" "0.0")
     = Ok 0%float
  /\ LLMConfig.py_int
       (LLMConfig.getenv Fixtures.blank_key_env "OPENAI_MAX_TOKENS" "1000")
     = Ok 1000
  /\ LLMConfig.get_llm Fixtures.blank_key_env
     = Err (Raise LLMConfigError LLMConfig.missing_key_message).
Proof.
  repeat (split; [reflexivity |]).
  apply (get_llm_without_key Fixtures.blank_key_env 0%float 1000); reflexivity.
Defined.

Lemma get_llm_with_key_witness :
  Fixtures.key_env "OPENAI_API_KEY" = Some "sk-test"
  /\ "sk-test" <> ""
  /\ LLMConfig.py_float
       (LLMConfig.getenv Fixtures.key_env "OPENAI_TEMPERATURE" "0.0")
     = Ok 0%float
  /\ LLMConfig.py_int
       (LLMConfig.getenv Fixtures.key_env "OPENAI_MAX_TOKENS" "1000")
     = Ok 1000
  /\ LLMConfig.get_llm Fixtures.key_env
     = LLMConfig.ChatOpenAI
         (LLMConfig.getenv Fixtures.key_env "OPENAI_MODEL" "gpt-4.1-nano")
         0%float 1000 "sk-test".
Proof.
  split; [reflexivity |]. split; [discriminate |].
  split; [reflexivity |]. split; [reflexivity |].
  apply (get_llm_with_key Fixtures.key_env "sk-test" 0%float 1000);
    [reflexivity | discriminate | reflexivity | reflexivity].
Defined.

Lemma chain_construction_failures_witness :
  (Fixtures.no_files ChainInit.default_data_path = None
   /\ ChainInit.init Fixtures.no_files Fixtures.key_env None None
      = Err (Raise DataFileNotFound
               ("Файл не найден: " ++ ChainInit.default_data_path)))
  /\ (LLMConfig.key_missing (Fixtures.empty_env "OPENAI_API_KEY") = true
      /\ LLMConfig.py_float
           (LLMConfig.getenv Fixtures.empty_env "OPENAI_TEMPERATURE" "0.0")
         = Ok 0%float
      /\ LLMConfig.py_int
           (LLMConfig.getenv Fixtures.empty_env "OPENAI_MAX_TOKENS" "1000")
         = Ok 1000
      /\ ChainInit.init Sample.fs Fixtures.empty_env (Some Sample.mock_analyzer) None
         = Err (Raise LLMConfigError LLMConfig.missing_key_message)).
Proof.
  split.
  - split; [reflexivity |].
    apply (proj1 (chain_construction_failures
                    Fixtures.no_files Fixtures.key_env None)).
    reflexivity.
  - repeat (split; [reflexivity |]).
    apply (proj2 (chain_construction_failures
                    Sample.fs Fixtures.empty_env None)
                 Sample.mock_analyzer 0%float 1000);
      reflexivity.
Defined.

Lemma encode_plain_unchanged_witness :
  Json.plain (PDict [ ("error", PStr "division by zero"); ("codes", PList [PInt 1]) ])
  = true
  /\ Json.encode (PDict [ ("error", PStr "division by zero");
                          ("codes", PList [PInt 1]) ])
     = Json.standard_encode (PDict [ ("error", PStr "division by zero");
                                     ("codes", PList [PInt 1]) ]).
Proof.
  split; [reflexivity |].
  apply (encode_plain_unchanged
           (PDict [ ("error", PStr "division by zero"); ("codes", PList [PInt 1]) ])).
  reflexivity.
Defined.

Lemma payment_breakdown_needs_np_encoder_witness :
  DataAnalyzer.df Sample.mock_analyzer = Some Sample.MOCK_DATA
  /\ existsb (fun r => str_eq (Payment_Method r) "Crypto") Sample.MOCK_DATA = true
  /\ exists results,
       DataAnalyzer.get_payment_method_analysis Sample.mock_analyzer = Ok results
       /\ Json.standard_encode results
          = Err (Raise TypeError "Object of type int64 is not JSON serializable")
       /\ (exists j, Json.encode results = Ok j).
Proof.
  split; [reflexivity |]. split; [reflexivity |].
  apply (payment_breakdown_needs_np_encoder
           Sample.mock_analyzer Sample.MOCK_DATA "Crypto");
    reflexivity.
Defined.

(* ================================================================= *)
(** ** The context of the next prompt *)

Section NextContext.

Import AnalysisChain.

Lemma append_assoc (a b c : string) : (a ++ b) ++ c = a ++ (b ++ c).
Proof. induction a as [| x a IH]; simpl; [reflexivity | now rewrite IH]. Qed.

Lemma join_snoc (sep : string) (l : list string) (x : string) :
  Py.join sep (l ++ [x])
  = match l with
    | [] => x
    | _ => Py.join sep l ++ sep ++ x
    end.
Proof.
  induction l as [| y l IH]; [reflexivity |].
  destruct l as [| z l]; [reflexivity |].
  change (Py.join sep ((y :: z :: l) ++ [x]))
    with (y ++ sep ++ Py.join sep ((z :: l) ++ [x])).
  rewrite IH.
  change (Py.join sep (y :: z :: l)) with (y ++ sep ++ Py.join sep (z :: l)).
  now rewrite !append_assoc.
Qed.

(** X24.  After a turn has been recorded, the context of the next prompt
    ends with that turn, and before it stand the turns that a window of
    four showed, each on two lines. *)
Theorem context_after_add (h : SessionMemory.t) (q a : string) :
  context_of (SessionMemory.get_history_default (SessionMemory.add h q a))
  = match SessionMemory.get_history h 4 with
    | [] => "Q: " ++ q ++ newline ++ "A: " ++ a
    | earlier => context_of earlier ++ newline
                 ++ "Q: " ++ q ++ newline ++ "A: " ++ a
    end.
Proof.
  unfold SessionMemory.get_history_default.
  rewrite get_history_positive by lia.
  unfold SessionMemory.add. rewrite length_app. cbn [List.length].
  rewrite skipn_snoc by lia.
  replace (List.length h + 1 - Z.to_nat 5)%nat
    with (List.length h - Z.to_nat 4)%nat by lia.
  rewrite <- (get_history_positive h 4) by lia.
  destruct (SessionMemory.get_history h 4) as [| e earlier]; [reflexivity |].
  unfold context_of.
  destruct ((e :: earlier) ++ [SessionMemory.Entry q a])%list eqn:Happ;
    [discriminate |].
  rewrite <- Happ. rewrite map_app. cbn [map].
  rewrite join_snoc. reflexivity.
Qed.

End NextContext.
